(** * App--Exclusividades: the property-listing API of [src/server.js]

    A shallow embedding of the Express server that keeps real-estate
    listings in one JSON file, [data/db.json], and of its four routes

      - GET    /api/imoveis        ([get_imoveis])
      - POST   /api/imoveis        ([post_imoveis])
      - PUT    /api/imoveis/:id    ([put_imoveis])
      - DELETE /api/imoveis/:id    ([delete_imoveis])

    together with the helpers [initializeDb], [readData], [writeData] and
    [validateProperty].

    Modelling decisions.
      - A JavaScript value that came out of [JSON.parse] is a [value]; an
        object is a finite map from property names to values (the order of
        the properties of an object is not modelled; that of the elements
        of an array is), [undefined] is the [None] of a property read.
      - A number is a binary64 floating-point number, as in JavaScript:
        signed zeros, finite numbers, infinities (what [JSON.parse] reads
        from a literal out of range, such as [1e400]) and NaN, in the
        [spec_float] of the Standard Library; an integer is read as the
        binary64 number nearest to it ([num]).
      - [JSON.stringify] is modelled by what [JSON.parse] reads back from
        the text it writes, [to_json]: a number that is not finite is
        written [null], negative zero is written [0], everything else is
        written as it is, at any depth.  Responses ([res.json]) and the data
        file ([writeData]) go through it.
      - The state of [db.json] is the value [JSON.parse] reads from its
        text, or [Malformed] when the text is not JSON, or [Absent].  The
        spelling of the text (white space, the digits of a number literal,
        which [JSON.parse] rounds to binary64) is not modelled.  The file
        system itself does not fail.
      - The body of a request is the value [express.json()] left in
        [req.body]: an object or an array (the parser answers any other
        JSON text itself), or nothing at all when the request carries no
        JSON.  The routes are functions of any value: what is proved of
        every body holds of these.
      - A JavaScript exception is [Throw]; every route catches it and
        answers 500.
      - [Date.now()] is an input of [post_imoveis]. *)

From Stdlib Require Import ZArith SpecFloat.
From stdpp Require Import gmap strings list fin_maps pretty.

Set Warnings "-register-all".

(** ** JSON values *)

Inductive value : Type :=
  | VNull
  | VBool (b : bool)
  | VNum (n : spec_float)
  | VStr (s : string)
  | VArr (l : list value)
  | VObj (o : gmap string value).

(** The binary64 number of an integer literal. *)
Definition num (z : Z) : spec_float := binary_normalize 53 1024 z 0 false.

Coercion num : Z >-> spec_float.

Arguments VNum n%_Z.

#[export] Instance value_inhabited : Inhabited value := populate VNull.

(** ** Exceptions *)

Inductive outcome (A : Type) : Type :=
  | Ok (a : A)
  | Throw.

Arguments Ok {A} a.
Arguments Throw {A}.

#[export] Instance outcome_ret : MRet outcome := λ A a, Ok a.

#[export] Instance outcome_bind : MBind outcome := λ A B f m,
  match m with
  | Ok a => f a
  | Throw => Throw
  end.

(** ** JavaScript operators on JSON values *)

(** [ToBoolean]: what [!x], [x || y] and [if (x)] look at.  Of the numbers,
    the two zeros and NaN are falsy. *)
Definition truthy (x : option value) : bool :=
  match x with
  | None => false
  | Some VNull => false
  | Some (VBool b) => b
  | Some (VNum (S754_zero _)) => false
  | Some (VNum S754_nan) => false
  | Some (VNum _) => true
  | Some (VStr s) => negb (String.eqb s "")
  | Some (VArr _) => true
  | Some (VObj _) => true
  end.

(** [x === 0]: true of both zeros. *)
Definition is_zero (x : option value) : bool :=
  match x with
  | Some (VNum (S754_zero _)) => true
  | _ => false
  end.

(** [typeof x === "number"]. *)
Definition is_number (x : option value) : bool :=
  match x with
  | Some (VNum _) => true
  | _ => false
  end.

(** [v[k]] and [v.k], for the property names this program reads (the twelve
    required fields, [properties] and [id]): none of them is an array index
    or a built-in property, so only an object can have one; reading a
    property of [null] is a [TypeError]. *)
Definition get (v : value) (k : string) : outcome (option value) :=
  match v with
  | VNull => Throw
  | VObj o => Ok (o !! k)
  | _ => Ok None
  end.

(** [...v] inside an object literal: the own properties of an object; [null],
    booleans and numbers contribute nothing.  (Strings and arrays would
    contribute their indices; the program spreads objects only, see
    [validateProperty_object] and [findIndex_Some].) *)
Definition spread (v : value) : gmap string value :=
  match v with
  | VObj o => o
  | _ => ∅
  end.

(** ** JSON serialisation *)

(** What [JSON.parse] reads from what [JSON.stringify] writes for a number:
    infinities and NaN are written [null], both zeros are written [0]. *)
Definition json_number (n : spec_float) : value :=
  match n with
  | S754_zero _ => VNum 0
  | S754_finite _ _ _ => VNum n
  | S754_infinity _ => VNull
  | S754_nan => VNull
  end.

(** [JSON.parse(JSON.stringify(v))]. *)
Fixpoint to_json (v : value) : value :=
  match v with
  | VNum n => json_number n
  | VArr l => VArr (to_json <$> l)
  | VObj o => VObj (to_json <$> o)
  | _ => v
  end.

(** A measure for induction on values. *)
Fixpoint vsize (v : value) : nat :=
  match v with
  | VArr l => S (foldr (λ x n, vsize x + n) 0 l)
  | VObj o => S (map_fold (λ _ x n, vsize x + n) 0 o)
  | _ => 1
  end.

(** ** Validation *)

Definition requiredFields : list string :=
  ["title"; "address"; "bedrooms"; "bathrooms"; "suites"; "built_area";
   "total_area"; "price"; "condition"; "description"; "cover_image_url";
   "photos_google_drive_link"].

Definition required_message (field : string) : string :=
  "O campo '" +:+ field +:+ "' é obrigatório.".

Definition type_message : string :=
  "Campos de quartos, banheiros, suítes e áreas devem ser números.".

(** [!property[field] && property[field] !== 0] *)
Definition missing (x : option value) : bool :=
  negb (truthy x) && negb (is_zero x).

(** The [for (const field of requiredFields)] loop. *)
Fixpoint check_required (property : value) (fields : list string)
  : outcome (option string) :=
  match fields with
  | [] => Ok None
  | field :: rest =>
      x ← get property field;
      if missing x then Ok (Some (required_message field))
      else check_required property rest
  end.

Definition validateProperty (property : value) : outcome (option string) :=
  r ← check_required property requiredFields;
  match r with
  | Some e => Ok (Some e)
  | None =>
      bedrooms ← get property "bedrooms";
      bathrooms ← get property "bathrooms";
      suites ← get property "suites";
      built_area ← get property "built_area";
      total_area ← get property "total_area";
      if negb (is_number bedrooms) || negb (is_number bathrooms)
         || negb (is_number suites) || negb (is_number built_area)
         || negb (is_number total_area)
      then Ok (Some type_message)
      else Ok None
  end.

(** ** The data file *)

Inductive db_file : Type :=
  | Absent
  | Malformed
  | Json (doc : value).

(** [{ properties: [] }] *)
Definition empty_document : value := VObj {[ "properties" := VArr [] ]}.

(** Code that reads and writes the file and may throw. *)
Definition io (A : Type) : Type := db_file → outcome A * db_file.

#[export] Instance io_ret : MRet io := λ A a fs, (Ok a, fs).

#[export] Instance io_bind : MBind io := λ A B f m fs,
  match m fs with
  | (Ok a, fs') => f a fs'
  | (Throw, fs') => (Throw, fs')
  end.

Definition lift {A : Type} (m : outcome A) : io A := λ fs, (m, fs).

Definition initializeDb : io unit := λ fs,
  match fs with
  | Absent => (Ok (), Json empty_document)
  | _ => (Ok (), fs)
  end.

(** [JSON.parse(await fs.readFile(DB_PATH, "utf-8"))] *)
Definition readFile : io value := λ fs,
  match fs with
  | Json doc => (Ok doc, fs)
  | _ => (Throw, fs)
  end.

(** [fs.writeFile(DB_PATH, JSON.stringify(data, null, 2), "utf-8")]: the
    file then holds the text of [data], which reads as [to_json data]. *)
Definition writeFile (data : value) : io unit := λ _,
  (Ok (), Json (to_json data)).

Definition readData : io value :=
  _ ← initializeDb; readFile.

Definition writeData (data : value) : io unit :=
  _ ← initializeDb; writeFile data.

(** ** HTTP responses *)

(** A response: its status and the value the client reads from its body. *)
Record response : Type := Response { status : Z; body : value }.

(** [res.status(status).json(v)] *)
Definition res_json (status : Z) (v : value) : response :=
  Response status (to_json v).

(** [{ message: msg }] *)
Definition message (msg : string) : value := VObj {[ "message" := VStr msg ]}.

(** [try { ... } catch (error) { res.status(500).json({ message }) }] *)
Definition try_catch (failure : string) (route : io response)
  : db_file → response * db_file := λ fs,
  match route fs with
  | (Ok res, fs') => (res, fs')
  | (Throw, fs') => (res_json 500 (message failure), fs')
  end.

(** ** Array methods used by the routes *)

(** [data.properties] as the receiver of [findIndex], [filter] and [push]:
    on anything but an array the call throws ([undefined] and [null] have no
    properties, the other values have no such method). *)
Definition as_array (x : option value) : outcome (list value) :=
  match x with
  | Some (VArr l) => Ok l
  | _ => Throw
  end.

(** [p.id === propertyId], where [propertyId] is a string. *)
Definition has_id (propertyId : string) (p : value) : outcome bool :=
  x ← get p "id";
  match x with
  | Some (VStr s) => Ok (bool_decide (s = propertyId))
  | _ => Ok false
  end.

(** [properties.findIndex(p => p.id === propertyId)]; [None] is [-1]. *)
Fixpoint findIndex (propertyId : string) (properties : list value)
  : outcome (option nat) :=
  match properties with
  | [] => Ok None
  | p :: rest =>
      found ← has_id propertyId p;
      if found : bool then Ok (Some 0%nat)
      else i ← findIndex propertyId rest; Ok (S <$> (i : option nat))
  end.

(** [properties.filter(p => p.id !== propertyId)] *)
Fixpoint filter_out (propertyId : string) (properties : list value)
  : outcome (list value) :=
  match properties with
  | [] => Ok []
  | p :: rest =>
      found ← has_id propertyId p;
      kept ← filter_out propertyId rest;
      Ok (if found : bool then kept else p :: kept)
  end.

(** [data.properties = l] on the loaded document. *)
Definition set_properties (data : value) (l : list value) : value :=
  match data with
  | VObj o => VObj (<["properties" := VArr l]> o)
  | _ => data
  end.

(** ** Routes *)

(** [x || []] *)
Definition or_empty (x : option value) : value :=
  match x with
  | Some v => if truthy x then v else VArr []
  | None => VArr []
  end.

(** GET /api/imoveis *)
Definition get_imoveis : db_file → response * db_file :=
  try_catch "Erro ao ler os dados dos imóveis."
    (data ← readData;
     properties ← lift (get data "properties");
     mret (res_json 200 (or_empty properties))).

(** [newProperty.id = id].  Only reached with an object, see
    [validateProperty_object]. *)
Definition set_id (newProperty : value) (id : string) : value :=
  match newProperty with
  | VObj o => VObj (<["id" := VStr id]> o)
  | _ => newProperty
  end.

(** POST /api/imoveis, with [now] the value of [Date.now()].

    A validation error is a non-empty string, hence truthy in
    [if (validationError)], see [validation_error_truthy]. *)
Definition post_imoveis (now : Z) (newProperty : value)
  : db_file → response * db_file :=
  try_catch "Erro ao adicionar o imóvel."
    (validationError ← lift (validateProperty newProperty);
     match validationError with
     | Some e => mret (res_json 400 (message e))
     | None =>
         data ← readData;
         let newProperty := set_id newProperty (pretty now) in
         properties ← lift (get data "properties");
         match data with
         | VObj o =>
             (* if (!data.properties) data.properties = []; then push *)
             l ← lift (as_array (Some (or_empty properties)));
             _ ← writeData (VObj (<["properties" := VArr (l ++ [newProperty])]> o));
             mret (res_json 201 newProperty)
         | VArr _ =>
             (* [properties] becomes a non-index property of the array,
                which JSON.stringify does not write *)
             _ ← writeData data;
             mret (res_json 201 newProperty)
         | _ =>
             (* the assignment to a primitive is dropped; [undefined.push] *)
             lift Throw
         end
     end).

(** PUT /api/imoveis/:id *)
Definition put_imoveis (propertyId : string) (updatedPropertyData : value)
  : db_file → response * db_file :=
  try_catch "Erro ao atualizar o imóvel."
    (validationError ← lift (validateProperty updatedPropertyData);
     match validationError with
     | Some e => mret (res_json 400 (message e))
     | None =>
         data ← readData;
         properties ← lift (get data "properties");
         l ← lift (as_array properties);
         propertyIndex ← lift (findIndex propertyId l);
         match propertyIndex with
         | None => mret (res_json 404 (message "Imóvel não encontrado."))
         | Some i =>
             let merged :=
               VObj (<["id" := VStr propertyId]>
                       (spread updatedPropertyData ∪ spread (l !!! i))) in
             _ ← writeData (set_properties data (<[i := merged]> l));
             mret (res_json 200 merged)
         end
     end).

(** DELETE /api/imoveis/:id *)
Definition delete_imoveis (propertyId : string)
  : db_file → response * db_file :=
  try_catch "Erro ao apagar o imóvel."
    (data ← readData;
     properties ← lift (get data "properties");
     l ← lift (as_array properties);
     let initialLength := length l in
     kept ← lift (filter_out propertyId l);
     if (length kept =? initialLength)%nat
     then mret (res_json 404 (message "Imóvel não encontrado para apagar."))
     else
       _ ← writeData (set_properties data kept);
       mret (res_json 200 (message "Imóvel apagado com sucesso."))).

(** ** Requests and runs *)

Inductive request : Type :=
  | List
  | Create (now : Z) (candidate : value)
  | Update (id : string) (candidate : value)
  | Remove (id : string).

Definition serve (r : request) : db_file → response * db_file :=
  match r with
  | List => get_imoveis
  | Create now candidate => post_imoveis now candidate
  | Update id candidate => put_imoveis id candidate
  | Remove id => delete_imoveis id
  end.

(** The file after serving the requests one after the other. *)
Definition run (rs : list request) (fs : db_file) : db_file :=
  foldl (λ fs r, snd (serve r fs)) fs rs.

(** The values of [Date.now()] read while serving the requests: one for
    each create whose candidate passes validation. *)
Definition timestamp (r : request) : option Z :=
  match r with
  | Create now candidate =>
      match validateProperty candidate with
      | Ok None => Some now
      | _ => None
      end
  | _ => None
  end.

Definition timestamps (rs : list request) : list Z := omap timestamp rs.

(** ** Vocabulary of the specification *)

(** The six numeric fields of a Property. *)
Definition numeric_fields : list string :=
  ["bedrooms"; "bathrooms"; "suites"; "built_area"; "total_area"; "price"].

(** The numeric fields whose type [validateProperty] tests. *)
Definition typed_fields : list string :=
  ["bedrooms"; "bathrooms"; "suites"; "built_area"; "total_area"].

(** The [id] of a stored record, when it has one (a string). *)
Definition record_id (p : value) : option string :=
  match p with
  | VObj r =>
      match r !! "id" with
      | Some (VStr s) => Some s
      | _ => None
      end
  | _ => None
  end.

(** [loads fs doc]: reading the file yields [doc] (the file holds it, or is
    absent and [doc] is the fresh empty Document). *)
Definition loads (fs : db_file) (doc : value) : Prop :=
  fst (readData fs) = Ok doc.

(** The ids of the records of a Collection, in order. *)
Definition ids (l : list value) : list (option string) := record_id <$> l.

(** [p] carries the id a create served at one of the timestamps [T] gives. *)
Definition created_at (T : list Z) (p : value) : Prop :=
  ∃ t, t ∈ T ∧ record_id p = Some (pretty t).

(** What holds of the file after requests whose creates were served at the
    timestamps [T], all different: it loads as a document whose [properties]
    is an array of records created at those timestamps, with no id twice. *)
Definition store_inv (T : list Z) (fs : db_file) : Prop :=
  ∃ o l, loads fs (VObj o)
    ∧ o !! "properties" = Some (VArr l)
    ∧ Forall (created_at T) l
    ∧ NoDup (ids l).

(** [save(load())] of the specification. *)
Definition save_load : io unit :=
  data ← readData; writeData data.

(** The Collection of a file: what GET /api/imoveis answers with. *)
Definition collection (fs : db_file) : value := body (fst (get_imoveis fs)).

(** A value that JSON writes as it is: every number in it is finite and is
    not negative zero. *)
Inductive json_exact : value → Prop :=
  | exact_null : json_exact VNull
  | exact_bool b : json_exact (VBool b)
  | exact_zero : json_exact (VNum 0)
  | exact_finite s m e : json_exact (VNum (S754_finite s m e))
  | exact_str s : json_exact (VStr s)
  | exact_arr l : Forall json_exact l → json_exact (VArr l)
  | exact_obj o : map_Forall (λ _, json_exact) o → json_exact (VObj o).

(** A file whose document, if it holds one, is written as it is. *)
Definition exact_file (fs : db_file) : Prop :=
  ∀ doc, fs = Json doc → json_exact doc.

(** The end-to-end candidate of the specification. *)
Definition sample : gmap string value :=
  list_to_map
    [("title", VStr "A"); ("address", VStr "X"); ("bedrooms", VNum 2);
     ("bathrooms", VNum 1); ("suites", VNum 0); ("built_area", VNum 50);
     ("total_area", VNum 60); ("price", VNum 100000);
     ("condition", VStr "new"); ("description", VStr "d");
     ("cover_image_url", VStr "u"); ("photos_google_drive_link", VStr "l")].

(** A stored record with a field of its own, a document that holds it, and
    a candidate that renames it and carries an id of its own. *)
Definition listed : gmap string value :=
  <["id" := VStr "1700000000000"]> (<["agent" := VStr "J"]> sample).

Definition one_listing : gmap string value :=
  {[ "properties" := VArr [VObj listed] ]}.

Definition revised : gmap string value :=
  <["id" := VStr "x"]> (<["title" := VStr "B"]> sample).

(** A candidate whose [bedrooms] was read from a literal out of range, such
    as [1e400]. *)
Definition overflowing : gmap string value :=
  <["bedrooms" := VNum (S754_infinity false)]> sample.

(** Two candidates for one timestamp. *)
Definition by_agent (agent : string) : gmap string value :=
  <["agent" := VStr agent]> sample.

(** ** Vocabulary of the further properties *)

(** [v] is an object. *)
Definition is_object (v : value) : Prop := ∃ r, v = VObj r.

(** A file in the shape the routes write: it loads as an object whose
    [properties] is an array of objects. *)
Definition well_formed (fs : db_file) : Prop :=
  ∃ o l, loads fs (VObj o)
    ∧ o !! "properties" = Some (VArr l)
    ∧ Forall is_object l.

(** The request was answered with a success status. *)
Definition succeeded (res : response) : Prop :=
  status res = 200%Z ∨ status res = 201%Z.

(** The responses to the requests of a run, in order. *)
Fixpoint responses (rs : list request) (fs : db_file) : list response :=
  match rs with
  | [] => []
  | req :: rest => fst (serve req fs) :: responses rest (snd (serve req fs))
  end.

(** Creates of the candidates [cs], served at the timestamps [ts]. *)
Definition creates (ts : list Z) (cs : list (gmap string value)) : list request :=
  zip_with (λ t c, Create t (VObj c)) ts cs.

(** The records those creates store. *)
Definition created (ts : list Z) (cs : list (gmap string value)) : list value :=
  zip_with (λ t c, VObj (<["id" := VStr (pretty t)]> c)) ts cs.

(** * Properties *)

Implicit Types (c r o m : gmap string value) (l kept : list value).
Implicit Types (p v data : value) (x : option value) (fs : db_file).
Implicit Types (f g h field id : string) (fields : list string).
(** ** Validation *)

(** Of the numbers, NaN alone is missing. *)
Lemma missing_number n : n ≠ S754_nan → missing (Some (VNum n)) = false.
Proof. by destruct n. Qed.

Lemma check_required_obj_cons c field rest :
  check_required (VObj c) (field :: rest) =
    if missing (c !! field) then Ok (Some (required_message field))
    else check_required (VObj c) rest.
Proof. done. Qed.

(** The loop stops at the first missing field. *)
Lemma check_required_first c pre f suf :
  Forall (λ h, missing (c !! h) = false) pre →
  missing (c !! f) = true →
  check_required (VObj c) (pre ++ f :: suf) = Ok (Some (required_message f)).
Proof.
  intros Hpre Hf. induction Hpre as [|h pre Hh _ IH]; cbn [app];
    rewrite check_required_obj_cons.
  - by rewrite Hf.
  - by rewrite Hh.
Qed.

(** The loop finds nothing exactly when every field is present. *)
Lemma check_required_None c fields :
  check_required (VObj c) fields = Ok None ↔
  Forall (λ h, missing (c !! h) = false) fields.
Proof.
  induction fields as [|h fields IH].
  - split; [by constructor | done].
  - rewrite check_required_obj_cons, Forall_cons.
    destruct (missing (c !! h)); [split; [done | by intros [? _]] |].
    rewrite IH. split; [done | by intros [_ ?]].
Qed.

(** A missing field splits the list at the first missing one. *)
Lemma first_missing_split c fields g :
  g ∈ fields → missing (c !! g) = true →
  ∃ pre f suf, fields = pre ++ f :: suf
    ∧ Forall (λ h, missing (c !! h) = false) pre
    ∧ missing (c !! f) = true
    ∧ g ∈ f :: suf.
Proof.
  induction fields as [|h fields IH]; [by intros ?%elem_of_nil |].
  intros Hg Hmiss.
  destruct (missing (c !! h)) eqn:Hh.
  - exists [], h, fields. by repeat split.
  - apply elem_of_cons in Hg as [->|Hg]; [congruence |].
    destruct (IH Hg Hmiss) as (pre & f & suf & -> & Hpre & Hf & Hin).
    exists (h :: pre), f, suf. repeat split; try done. by constructor.
Qed.

(** What [validateProperty] answers on an object. *)
Lemma validateProperty_obj c :
  validateProperty (VObj c) =
    match check_required (VObj c) requiredFields with
    | Ok (Some e) => Ok (Some e)
    | Ok None =>
        if forallb (λ f, is_number (c !! f)) typed_fields
        then Ok None else Ok (Some type_message)
    | Throw => Throw
    end.
Proof.
  unfold validateProperty.
  destruct (check_required (VObj c) requiredFields) as [[e|]|]; try done.
  simpl.
  by destruct (is_number (c !! "bedrooms")), (is_number (c !! "bathrooms")),
    (is_number (c !! "suites")), (is_number (c !! "built_area")),
    (is_number (c !! "total_area")).
Qed.

(** Only an object passes validation. *)
Lemma validateProperty_object v :
  validateProperty v = Ok None → ∃ c, v = VObj c.
Proof. destruct v; try done. by eexists. Qed.

(** A candidate passes exactly when no required field is missing and the
    five tested fields are numbers. *)
Lemma validateProperty_None c :
  validateProperty (VObj c) = Ok None ↔
  Forall (λ h, missing (c !! h) = false) requiredFields
  ∧ Forall (λ f, is_number (c !! f) = true) typed_fields.
Proof.
  rewrite validateProperty_obj, <-check_required_None.
  assert (forallb (λ f, is_number (c !! f)) typed_fields = true
          ↔ Forall (λ f, is_number (c !! f) = true) typed_fields) as Hall.
  { rewrite forallb_forall, Forall_forall.
    split; intros H f Hf; by apply H, list_elem_of_In. }
  destruct (check_required (VObj c) requiredFields) as [[e|]|].
  - split; [done | by intros [? _]].
  - destruct (forallb _ typed_fields).
    + split; [|done]. intros _. split; [done|]. by apply Hall.
    + split; [done|]. intros [_ Hnum%Hall]. done.
  - split; [done | by intros [? _]].
Qed.

(** ** The data file *)

Lemma readData_Json doc : readData (Json doc) = (Ok doc, Json doc).
Proof. done. Qed.

Lemma readData_Absent : readData Absent = (Ok empty_document, Json empty_document).
Proof. done. Qed.

Lemma readData_Malformed : readData Malformed = (Throw, Malformed).
Proof. done. Qed.

Lemma writeData_any data fs : writeData data fs = (Ok (), Json (to_json data)).
Proof. by destruct fs. Qed.

(** ** JSON serialisation *)

Lemma vsize_elem l p : p ∈ l → vsize p < vsize (VArr l).
Proof. induction 1 as [p l|p q l _ IH]; simpl in *; lia. Qed.

Lemma vsize_lookup o k p : o !! k = Some p → vsize p < vsize (VObj o).
Proof.
  intros Hk. simpl.
  rewrite (map_fold_delete_L _ _ k p o); [lia| |done].
  intros; lia.
Qed.

(** Induction on a value, with the hypothesis for every element of an array
    and every property of an object. *)
Lemma value_ind' (P : value → Prop) :
  P VNull → (∀ b, P (VBool b)) → (∀ n, P (VNum n)) → (∀ s, P (VStr s)) →
  (∀ l, Forall P l → P (VArr l)) →
  (∀ o, map_Forall (λ _, P) o → P (VObj o)) →
  ∀ v, P v.
Proof.
  intros Hnull Hbool Hnum Hstr Harr Hobj v.
  induction (Nat.lt_wf_0_projected vsize v) as [v _ IH].
  destruct v as [| | | |l|o]; auto.
  - apply Harr, Forall_forall. intros p Hp. by apply IH, vsize_elem.
  - apply Hobj. intros k p Hk. by eapply IH, vsize_lookup.
Qed.

(** Writing what was read from a written text changes nothing more. *)
Lemma to_json_idemp v : to_json (to_json v) = to_json v.
Proof.
  induction v as [| |n| |l IH|o IH] using value_ind'; simpl; try done.
  - by destruct n.
  - f_equal. rewrite <-list_fmap_compose. apply Forall_fmap_ext_1.
    eapply Forall_impl; [exact IH|]. done.
  - f_equal. rewrite <-map_fmap_compose. apply map_fmap_ext.
    intros k p Hk. by apply (IH k p).
Qed.

(** A value whose numbers are finite and not negative zero is written as it
    is. *)
Lemma json_exact_to_json v : json_exact v → to_json v = v.
Proof.
  induction v as [| |n| |l IH|o IH] using value_ind'; intros Hv; try done.
  - by inversion Hv.
  - inversion Hv as [| | | | |l' Hl|]; subst. simpl. f_equal.
    rewrite <-(list_fmap_id l) at 2. apply Forall_fmap_ext_1.
    apply Forall_forall. intros p Hp.
    eapply Forall_forall in IH; [|done]. eapply Forall_forall in Hl; [|done].
    by apply IH.
  - inversion Hv as [| | | | | |o' Ho]; subst. simpl. f_equal.
    rewrite <-(map_fmap_id o) at 2. apply map_fmap_ext.
    intros k p Hk. apply (IH k p Hk), (Ho k p Hk).
Qed.

(** What is written is such a value. *)
Lemma to_json_exact v : json_exact (to_json v).
Proof.
  induction v as [| |n| |l IH|o IH] using value_ind'; simpl; try by constructor.
  - destruct n; constructor.
  - constructor. apply Forall_fmap. eapply Forall_impl; [exact IH|]. done.
  - constructor. apply map_Forall_fmap. intros k p Hk. by apply (IH k p).
Qed.

Lemma to_json_message msg : to_json (message msg) = message msg.
Proof. unfold message. simpl. by rewrite map_fmap_singleton. Qed.

(** The document the routes write: its Collection and its other keys. *)
Lemma to_json_document o l :
  to_json (VObj (<["properties" := VArr l]> o))
  = VObj (<["properties" := VArr (to_json <$> l)]> (to_json <$> o)).
Proof. simpl. by rewrite fmap_insert. Qed.

(** Writing a record keeps its id. *)
Lemma record_id_to_json p : record_id (to_json p) = record_id p.
Proof.
  destruct p as [| |n| | |r]; try done; [by destruct n|].
  simpl. rewrite lookup_fmap.
  destruct (r !! "id") as [q|]; [|done]. simpl.
  destruct q as [| |n| | |]; try done. by destruct n.
Qed.

Lemma ids_to_json l : ids (to_json <$> l) = ids l.
Proof.
  unfold ids. rewrite <-list_fmap_compose. apply list_fmap_ext.
  intros _ p _. apply record_id_to_json.
Qed.

(** Writing keeps the records that are filtered out and those that are
    kept. *)
Lemma filter_to_json id l :
  filter (λ p, record_id p ≠ Some id) (to_json <$> l)
  = to_json <$> filter (λ p, record_id p ≠ Some id) l.
Proof.
  induction l as [|p l IH]; [done|].
  rewrite fmap_cons, !filter_cons, IH, record_id_to_json.
  by destruct (decide (record_id p ≠ Some id)).
Qed.

(** ** Searching and filtering the Collection *)

Lemma has_id_record_id id p :
  p ≠ VNull → has_id id p = Ok (bool_decide (record_id p = Some id)).
Proof.
  intros Hp. destruct p as [| | | | |r]; try done. unfold has_id, record_id; simpl.
  destruct (r !! "id") as [[]|]; try done.
  f_equal. apply bool_decide_ext. split; congruence.
Qed.

(** No record with the id, and no [null] on the way: [-1]. *)
Lemma findIndex_None id l :
  Forall (λ p, p ≠ VNull ∧ record_id p ≠ Some id) l →
  findIndex id l = Ok None.
Proof.
  induction 1 as [|p l [Hp Hid] _ IH]; [done|].
  simpl. rewrite has_id_record_id by done.
  rewrite bool_decide_eq_false_2 by done. simpl. by rewrite IH.
Qed.

(** The index found is that of the first record with the id. *)
Lemma findIndex_first id l1 p l2 :
  Forall (λ p, p ≠ VNull ∧ record_id p ≠ Some id) l1 →
  record_id p = Some id →
  findIndex id (l1 ++ p :: l2) = Ok (Some (length l1)).
Proof.
  intros Hl1 Hp. induction Hl1 as [|q l1 [Hq Hid] _ IH]; simpl.
  - rewrite has_id_record_id by (by destruct p).
    by rewrite bool_decide_eq_true_2.
  - rewrite has_id_record_id by done.
    rewrite bool_decide_eq_false_2 by done. simpl. by rewrite IH.
Qed.

(** Whatever index is found holds an object with the id. *)
Lemma findIndex_Some id l i :
  findIndex id l = Ok (Some i) →
  ∃ r, l !! i = Some (VObj r) ∧ r !! "id" = Some (VStr id).
Proof.
  revert i. induction l as [|p l IH]; intros i; [done|]. simpl.
  destruct (has_id id p) as [[]|] eqn:Hp; simpl; [| |done].
  - intros [= <-]. destruct p as [| | | | |r]; try done.
    exists r. split; [done|]. unfold has_id in Hp; simpl in Hp.
    destruct (r !! "id") as [[]|]; try done.
    injection Hp as Hp. by apply bool_decide_eq_true_1 in Hp as ->.
  - destruct (findIndex id l) as [[j|]|]; try done. simpl.
    intros [= <-]. by apply IH.
Qed.

(** Without [null] records, [filter_out] is the list filter. *)
Lemma filter_out_filter id l :
  Forall (λ p, p ≠ VNull) l →
  filter_out id l = Ok (filter (λ p, record_id p ≠ Some id) l).
Proof.
  induction 1 as [|p l Hp _ IH]; [done|].
  simpl. rewrite has_id_record_id, IH by done. simpl.
  rewrite filter_cons. destruct (decide (record_id p = Some id)) as [Hid|Hid].
  - rewrite bool_decide_eq_true_2 by done. by rewrite decide_False by auto.
  - rewrite bool_decide_eq_false_2 by done. by rewrite decide_True.
Qed.

Lemma filter_all_Forall {A} (P : A → Prop) `{!∀ a, Decision (P a)} (xs : list A) :
  Forall P xs → filter P xs = xs.
Proof.
  induction 1 as [|a xs Ha _ IH]; [done|].
  by rewrite filter_cons, decide_True, IH.
Qed.

(** ** The routes on a document that is an object *)

Lemma loads_readData fs doc : loads fs doc → readData fs = (Ok doc, Json doc).
Proof.
  unfold loads.
  destruct fs;
    [rewrite readData_Absent | rewrite readData_Malformed | rewrite readData_Json];
    simpl; congruence.
Qed.

Lemma loads_Json doc : loads (Json doc) doc.
Proof. done. Qed.

Lemma loads_Absent : loads Absent empty_document.
Proof. done. Qed.

(** Membership in a literal list. *)
Ltac in_list :=
  repeat first [apply list_elem_of_here | apply list_elem_of_further].

(** Runs a route through its binds, reads and writes. *)
Ltac io_simpl :=
  repeat progress
    (unfold mbind, io_bind, lift, mret, io_ret, res_json;
     cbn -[or_empty readData writeData to_json message];
     rewrite ?writeData_any, ?to_json_message).

Ltac io_read H :=
  io_simpl; rewrite (loads_readData _ _ H); io_simpl.

Section loaded_document.

(** The file [fs] loads as the object [o]. *)
Context (fs : db_file) (o : gmap string value) (Hfs : loads fs (VObj o)).

Lemma get_imoveis_obj :
  get_imoveis fs
  = (Response 200 (to_json (or_empty (o !! "properties"))), Json (VObj o)).
Proof. unfold get_imoveis, try_catch. by io_read Hfs. Qed.

Lemma post_imoveis_valid now c l :
  validateProperty (VObj c) = Ok None →
  or_empty (o !! "properties") = VArr l →
  let stored := VObj (<["id" := VStr (pretty now)]> c) in
  post_imoveis now (VObj c) fs
  = (Response 201 (to_json stored),
     Json (to_json (VObj (<["properties" := VArr (l ++ [stored])]> o)))).
Proof.
  intros Hv Hl. unfold post_imoveis, try_catch.
  rewrite Hv. io_read Hfs. rewrite Hl. by io_simpl.
Qed.

Lemma put_imoveis_valid id c l :
  validateProperty (VObj c) = Ok None →
  o !! "properties" = Some (VArr l) →
  put_imoveis id (VObj c) fs
  = match findIndex id l with
    | Ok (Some i) =>
        let merged := VObj (<["id" := VStr id]> (c ∪ spread (l !!! i))) in
        (Response 200 (to_json merged),
         Json (to_json (VObj (<["properties" := VArr (<[i := merged]> l)]> o))))
    | Ok None =>
        (Response 404 (message "Imóvel não encontrado."), Json (VObj o))
    | Throw =>
        (Response 500 (message "Erro ao atualizar o imóvel."), Json (VObj o))
    end.
Proof.
  intros Hv Hl. unfold put_imoveis, try_catch.
  rewrite Hv. io_read Hfs. rewrite Hl. io_simpl.
  destruct (findIndex id l) as [[i|]|]; by io_simpl.
Qed.

Lemma delete_imoveis_obj id l :
  o !! "properties" = Some (VArr l) →
  delete_imoveis id fs
  = match filter_out id l with
    | Ok kept =>
        if (length kept =? length l)%nat
        then (Response 404 (message "Imóvel não encontrado para apagar."),
              Json (VObj o))
        else (Response 200 (message "Imóvel apagado com sucesso."),
              Json (to_json (VObj (<["properties" := VArr kept]> o))))
    | Throw =>
        (Response 500 (message "Erro ao apagar o imóvel."), Json (VObj o))
    end.
Proof.
  intros Hl. unfold delete_imoveis, try_catch. io_read Hfs.
  rewrite Hl. io_simpl.
  destruct (filter_out id l) as [kept|]; io_simpl; [|done].
  destruct (length kept =? length l)%nat; by io_simpl.
Qed.

End loaded_document.

(** A candidate that fails validation is answered 400 before the file is
    touched. *)
Lemma post_imoveis_invalid now v e fs :
  validateProperty v = Ok (Some e) →
  post_imoveis now v fs = (Response 400 (message e), fs).
Proof. intros Hv. unfold post_imoveis, try_catch. rewrite Hv. by io_simpl. Qed.

Lemma put_imoveis_invalid id v e fs :
  validateProperty v = Ok (Some e) →
  put_imoveis id v fs = (Response 400 (message e), fs).
Proof. intros Hv. unfold put_imoveis, try_catch. rewrite Hv. by io_simpl. Qed.

(** ** Validation messages *)

Lemma string_length_app (s t : string) :
  String.length (s +:+ t) = (String.length s + String.length t)%nat.
Proof. induction s as [|a s IH]; simpl; [done | by rewrite IH]. Qed.

Lemma string_app_inj_r (s1 s2 t : string) : s1 +:+ t = s2 +:+ t → s1 = s2.
Proof.
  revert s2. induction s1 as [|a s1 IH]; intros [|b s2] Heq.
  - done.
  - apply (f_equal String.length) in Heq.
    rewrite !string_length_app in Heq. simpl in Heq. lia.
  - apply (f_equal String.length) in Heq.
    rewrite !string_length_app in Heq. simpl in Heq. lia.
  - cbn in Heq. injection Heq as -> Heq. f_equal. by apply IH.
Qed.

(** The message names its field. *)
Lemma required_message_inj f g : required_message f = required_message g → f = g.
Proof.
  unfold required_message. intros Heq.
  apply (inj (String.append _)) in Heq. by apply string_app_inj_r in Heq.
Qed.

Lemma required_message_not_type f : required_message f ≠ type_message.
Proof. done. Qed.

(** Every validation error is one of the two messages of the source. *)
Lemma validateProperty_Some c e :
  validateProperty (VObj c) = Ok (Some e) →
  (∃ f, f ∈ requiredFields ∧ missing (c !! f) = true ∧ e = required_message f)
  ∨ (e = type_message
     ∧ Forall (λ h, missing (c !! h) = false) requiredFields).
Proof.
  rewrite validateProperty_obj.
  destruct (check_required (VObj c) requiredFields) as [[e'|]|] eqn:Hreq;
    [| |done].
  - intros [= ->]. left. clear -Hreq.
    induction requiredFields as [|h fields IH]; [done|].
    rewrite check_required_obj_cons in Hreq.
    destruct (missing (c !! h)) eqn:Hh.
    + injection Hreq as <-. exists h. split; [apply list_elem_of_here | done].
    + destruct (IH Hreq) as (f & Hf & Hmiss & ->).
      exists f. split; [by apply list_elem_of_further | done].
  - destruct (forallb _ typed_fields) eqn:Hall; [done|].
    intros [= <-]. right. split; [done|]. by apply check_required_None.
Qed.

(** A validation error is a non-empty string: [if (validationError)] takes
    the error branch exactly when there is one. *)
Lemma validation_error_truthy v e :
  validateProperty v = Ok (Some e) → truthy (Some (VStr e)) = true.
Proof.
  destruct v as [| | | | |c].
  6: by intros [(f & _ & _ & ->)|[-> _]]%validateProperty_Some.
  all: intros Hv; vm_compute in Hv; by simplify_eq.
Qed.

(** The outcome of validation depends on the candidate only through the
    two tests the source applies to its fields. *)
Lemma validateProperty_ext c1 c2 :
  (∀ h, h ∈ requiredFields → missing (c1 !! h) = missing (c2 !! h)) →
  (∀ f, f ∈ typed_fields → is_number (c1 !! f) = is_number (c2 !! f)) →
  validateProperty (VObj c1) = validateProperty (VObj c2).
Proof.
  intros Hmiss Hnum. rewrite !validateProperty_obj.
  assert (check_required (VObj c1) requiredFields
          = check_required (VObj c2) requiredFields) as ->.
  { induction requiredFields as [|h fields IH]; [done|].
    rewrite !check_required_obj_cons, Hmiss by apply list_elem_of_here.
    rewrite IH; [done|]. intros h' Hh'. by apply Hmiss, list_elem_of_further. }
  assert (forallb (λ f, is_number (c1 !! f)) typed_fields
          = forallb (λ f, is_number (c2 !! f)) typed_fields) as ->; [|done].
  induction typed_fields as [|h fields IH]; [done|]. simpl.
  rewrite Hnum by apply list_elem_of_here.
  rewrite IH; [done|]. intros h' Hh'. by apply Hnum, list_elem_of_further.
Qed.

(** * The claims *)

(** ** Validation: C4, C5, C6 *)

(** C4, as stated, fails: a candidate whose [price] is the string
    ["100000"], with every other field as in [sample], has a numeric field
    that is present and not a number, and [validateProperty] returns [null]. *)
Lemma price_type_is_not_checked :
  ¬ (∀ c f, f ∈ numeric_fields → is_Some (c !! f) →
       is_number (c !! f) = false →
       ∃ e, validateProperty (VObj c) = Ok (Some e)).
Proof.
  intros Hclaim.
  destruct (Hclaim (<["price" := VStr "100000"]> sample) "price") as [e He].
  - unfold numeric_fields. in_list.
  - by eexists.
  - done.
  - vm_compute in He. discriminate.
Qed.

(** C4, amended.  For every candidate record in which one of the five fields
    bedrooms, bathrooms, suites, built_area, total_area does not have numeric
    type, [validateProperty] returns a validation error rather than [null]
    (the type message when every required field is present); the type of
    [price] is not tested: any present value of [price] is treated as the
    number 1 is. *)
Theorem validate_rejects_non_numeric c :
  (∀ f, f ∈ typed_fields → is_number (c !! f) = false →
     ∃ e, validateProperty (VObj c) = Ok (Some e)
          ∧ (Forall (λ h, missing (c !! h) = false) requiredFields →
             e = type_message))
  ∧ (∀ v, missing (Some v) = false →
       validateProperty (VObj (<["price" := v]> c))
       = validateProperty (VObj (<["price" := VNum 1]> c))).
Proof.
  split.
  - intros f Hf Hnum.
    destruct (validateProperty (VObj c)) as [[e|]|] eqn:Hv.
    + exists e. split; [done|]. intros Hall.
      apply validateProperty_Some in Hv as [(g & Hg & Hmiss & _)|[-> _]]; [|done].
      eapply Forall_forall in Hall; [|done]. congruence.
    + apply validateProperty_None in Hv as [_ Hall].
      eapply Forall_forall in Hall; [|done]. congruence.
    + rewrite validateProperty_obj in Hv.
      destruct (check_required (VObj c) requiredFields) as [[e|]|] eqn:Hreq;
        [done| |].
      * by destruct (forallb _ typed_fields).
      * clear -Hreq. exfalso. induction requiredFields as [|h fields IH]; [done|].
        rewrite check_required_obj_cons in Hreq.
        by destruct (missing (c !! h)); [|apply IH].
  - intros v Hv. apply validateProperty_ext.
    + intros h _. destruct (decide (h = "price")) as [->|Hne].
      * by rewrite !lookup_insert_eq.
      * by rewrite !lookup_insert_ne.
    + intros f Hf. rewrite !lookup_insert_ne; [done| |];
        intros <-; apply list_elem_of_In in Hf; simpl in Hf;
        intuition discriminate.
Qed.

Lemma validate_rejects_non_numeric_witness :
  ∃ e, validateProperty (VObj (<["suites" := VStr "2"]> sample)) = Ok (Some e)
       ∧ (Forall (λ h, missing (<["suites" := VStr "2"]> sample !! h) = false)
            requiredFields → e = type_message).
Proof.
  apply (proj1 (validate_rejects_non_numeric (<["suites" := VStr "2"]> sample))
           "suites").
  - unfold typed_fields. in_list.
  - reflexivity.
Defined.

(** C5.  A field supplied as the literal number 0 (for instance
    [suites: 0]) is not missing for [validateProperty]: the required-field
    error for that field is never returned, and when the other required
    fields are present and the other tested fields are numbers the candidate
    passes validation. *)
Theorem zero_is_present c f :
  c !! f = Some (VNum 0) →
  missing (c !! f) = false
  ∧ validateProperty (VObj c) ≠ Ok (Some (required_message f))
  ∧ (Forall (λ h, h ≠ f → missing (c !! h) = false) requiredFields →
     Forall (λ h, h ≠ f → is_number (c !! h) = true) typed_fields →
     validateProperty (VObj c) = Ok None).
Proof.
  intros Hf. assert (missing (c !! f) = false) as Hpresent by by rewrite Hf.
  split; [done|]. split.
  - intros [(g & _ & Hg & Heq)|[Heq _]]%validateProperty_Some.
    + apply required_message_inj in Heq as ->. congruence.
    + by apply required_message_not_type in Heq.
  - intros Hreq Hnum. apply validateProperty_None. split.
    + eapply Forall_impl; [exact Hreq|]. intros h Hh.
      destruct (decide (h = f)) as [->|]; auto.
    + eapply Forall_impl; [exact Hnum|]. intros h Hh.
      destruct (decide (h = f)) as [->|]; [by rewrite Hf | auto].
Qed.

Lemma zero_is_present_witness :
  missing (sample !! "suites") = false
  ∧ validateProperty (VObj sample) ≠ Ok (Some (required_message "suites"))
  ∧ (Forall (λ h, h ≠ "suites" → missing (sample !! h) = false) requiredFields →
     Forall (λ h, h ≠ "suites" → is_number (sample !! h) = true) typed_fields →
     validateProperty (VObj sample) = Ok None).
Proof. apply (zero_is_present sample "suites"). reflexivity. Defined.



(** ** Update and delete: C2, C3, C7 *)

Lemma insert_middle {A} (l1 l2 : list A) (a b : A) :
  <[length l1 := b]> (l1 ++ a :: l2) = l1 ++ b :: l2.
Proof. by rewrite <-(Nat.add_0_r (length l1)), insert_app_r. Qed.

(** A record of a given id is an object that carries it. *)
Lemma record_id_Some p id :
  record_id p = Some id ↔ ∃ r, p = VObj r ∧ r !! "id" = Some (VStr id).
Proof.
  split.
  - destruct p as [| | | | |r]; try done. simpl.
    destruct (r !! "id") as [[]|] eqn:Hr; try done. intros [= ->]. by exists r.
  - intros (r & -> & Hr). simpl. by rewrite Hr.
Qed.

(** When some record has the id, the Collection splits at the first one. *)
Lemma first_record_split id l :
  Exists (λ p, record_id p = Some id) l →
  ∃ l1 r0 l2, l = l1 ++ VObj r0 :: l2
    ∧ r0 !! "id" = Some (VStr id)
    ∧ Forall (λ p, record_id p ≠ Some id) l1.
Proof.
  induction l as [|p l IH]; [by intros ?%Exists_nil|].
  intros Hex. destruct (decide (record_id p = Some id)) as [Hp|Hp].
  - apply record_id_Some in Hp as (r0 & -> & Hr0).
    exists [], r0, l. by repeat split.
  - apply Exists_cons in Hex as [Hex|Hex]; [done|].
    destruct (IH Hex) as (l1 & r0 & l2 & -> & Hr0 & Hl1).
    exists (p :: l1), r0, l2. repeat split; [done|]. by constructor.
Qed.

(** In a Collection without an id twice, a record is known by its id. *)
Lemma unique_record l p q :
  NoDup (ids l) → p ∈ l → q ∈ l → record_id p = record_id q → p = q.
Proof.
  unfold ids. induction l as [|a l IH]; [by intros _ ?%elem_of_nil|].
  rewrite fmap_cons, NoDup_cons. intros [Ha Hnd] Hp Hq Heq.
  apply elem_of_cons in Hp as [->|Hp]; apply elem_of_cons in Hq as [->|Hq].
  - done.
  - destruct Ha. rewrite Heq. by apply list_elem_of_fmap_2.
  - destruct Ha. rewrite <-Heq. by apply list_elem_of_fmap_2.
  - by apply IH.
Qed.

(** C2, as stated, fails: two creates served at one timestamp leave two
    records with one id; PUT to that id merges the candidate over the first
    of them and leaves the second as it was: the returned record has the
    [agent] of the first, not that of the second, and the [title] of the
    second, a field of the candidate, is not overwritten. *)
Lemma update_reaches_the_first_duplicate_only :
  let fs := run [Create 1700000000000 (VObj (by_agent "J"));
                 Create 1700000000000 (VObj (by_agent "K"))] Absent in
  let second := <["id" := VStr "1700000000000"]> (by_agent "K") in
  validateProperty (VObj revised) = Ok None
  ∧ collection fs
    = VArr [VObj (<["id" := VStr "1700000000000"]> (by_agent "J")); VObj second]
  ∧ ∃ m,
      put_imoveis "1700000000000" (VObj revised) fs
      = (Response 200 (VObj m),
         Json (VObj {[ "properties" := VArr [VObj m; VObj second] ]}))
      ∧ m !! "agent" = Some (VStr "J")
      ∧ second !! "agent" = Some (VStr "K")
      ∧ revised !! "title" = Some (VStr "B")
      ∧ second !! "title" = Some (VStr "A").
Proof.
  split; [reflexivity|]. split; [vm_compute; reflexivity|].
  eexists. split; [vm_compute; reflexivity|]. by vm_compute.
Qed.

(** C2, amended.  For every record [r] of a Collection of records and every
    candidate that passes validation, PUT at the id of [r] answers 200: it
    merges the candidate over the record [r0] that the id designates, the
    first of the Collection with that id, which is [r] itself when no id
    occurs twice; it stores the merged record in place of [r0] and returns
    it, as JSON serialises it.  In the merged record the id is the path id
    whatever the candidate says, every other field of the candidate has the
    value the candidate gives it, and every field the candidate lacks has the
    value it has in [r0]. *)
Theorem update_merges id c fs o l r :
  validateProperty (VObj c) = Ok None →
  loads fs (VObj o) →
  o !! "properties" = Some (VArr l) →
  Forall (λ p, p ≠ VNull) l →
  VObj r ∈ l →
  r !! "id" = Some (VStr id) →
  ∃ l1 r0 l2 m,
    l = l1 ++ VObj r0 :: l2
    ∧ r0 !! "id" = Some (VStr id)
    ∧ Forall (λ p, record_id p ≠ Some id) l1
    ∧ (NoDup (ids l) → r0 = r)
    ∧ m = <["id" := VStr id]> (c ∪ r0)
    ∧ put_imoveis id (VObj c) fs
      = (Response 200 (VObj (to_json <$> m)),
         Json (to_json (VObj (<["properties" := VArr (l1 ++ VObj m :: l2)]> o))))
    ∧ (to_json <$> m) !! "id" = Some (VStr id)
    ∧ (∀ k, k ≠ "id" → c !! k = None →
         (to_json <$> m) !! k = to_json <$> r0 !! k)
    ∧ (∀ k v, k ≠ "id" → c !! k = Some v →
         (to_json <$> m) !! k = Some (to_json v)).
Proof.
  intros Hv Hfs Hl Hrec Hr Hid.
  destruct (first_record_split id l) as (l1 & r0 & l2 & -> & Hr0 & Hl1).
  { apply Exists_exists. exists (VObj r). split; [done|]. simpl. by rewrite Hid. }
  exists l1, r0, l2, (<["id" := VStr id]> (c ∪ r0)).
  split; [done|]. split; [done|]. split; [done|].
  split; [|split; [done|split; [|split; [|split]]]].
  - intros Hnd. assert (VObj r0 = VObj r) as [= ->]; [|done].
    apply (unique_record _ _ _ Hnd); [|done|].
    + apply elem_of_app. right. apply list_elem_of_here.
    + simpl. by rewrite Hr0, Hid.
  - rewrite (put_imoveis_valid fs o Hfs id c _ Hv Hl).
    rewrite (findIndex_first id l1 (VObj r0) l2).
    + cbn zeta. rewrite list_lookup_total_middle by done. cbn [spread].
      by rewrite insert_middle.
    + apply Forall_app in Hrec as [Hrec _].
      apply Forall_forall. intros p Hp. split.
      * by eapply Forall_forall in Hrec.
      * by eapply Forall_forall in Hl1.
    + simpl. by rewrite Hr0.
  - by rewrite lookup_fmap, lookup_insert_eq.
  - intros k Hk Hc. rewrite lookup_fmap, lookup_insert_ne by done.
    by rewrite lookup_union_r.
  - intros k v Hk Hc. rewrite lookup_fmap, lookup_insert_ne by done.
    by rewrite (lookup_union_Some_l c r0 k v Hc).
Qed.

Lemma update_merges_witness :
  ∃ l1 r0 l2 m,
    [VObj listed] = l1 ++ VObj r0 :: l2
    ∧ r0 !! "id" = Some (VStr "1700000000000")
    ∧ Forall (λ p, record_id p ≠ Some "1700000000000") l1
    ∧ (NoDup (ids [VObj listed]) → r0 = listed)
    ∧ m = <["id" := VStr "1700000000000"]> (revised ∪ r0)
    ∧ put_imoveis "1700000000000" (VObj revised) (Json (VObj one_listing))
      = (Response 200 (VObj (to_json <$> m)),
         Json (to_json (VObj (<["properties" := VArr (l1 ++ VObj m :: l2)]>
                                 one_listing))))
    ∧ (to_json <$> m) !! "id" = Some (VStr "1700000000000")
    ∧ (∀ k, k ≠ "id" → revised !! k = None →
         (to_json <$> m) !! k = to_json <$> r0 !! k)
    ∧ (∀ k v, k ≠ "id" → revised !! k = Some v →
         (to_json <$> m) !! k = Some (to_json v)).
Proof.
  apply (update_merges "1700000000000" revised (Json (VObj one_listing))
           one_listing [VObj listed] listed).
  - reflexivity.
  - reflexivity.
  - reflexivity.
  - repeat constructor. discriminate.
  - apply list_elem_of_here.
  - reflexivity.
Defined.

(** C7.  PUT with a candidate that passes validation and an id that no
    record of the Collection has answers 404 and writes nothing: the file
    holds the document that was loaded. *)
Theorem update_unknown_id id v fs o l :
  validateProperty v = Ok None →
  loads fs (VObj o) →
  o !! "properties" = Some (VArr l) →
  Forall (λ p, p ≠ VNull ∧ record_id p ≠ Some id) l →
  put_imoveis id v fs
  = (Response 404 (message "Imóvel não encontrado."), Json (VObj o)).
Proof.
  intros Hv Hfs Hl Hnone.
  destruct (validateProperty_object v Hv) as [c ->].
  rewrite (put_imoveis_valid fs o Hfs id c l Hv Hl).
  by rewrite findIndex_None.
Qed.

Lemma update_unknown_id_witness :
  put_imoveis "42" (VObj revised) (Json (VObj one_listing))
  = (Response 404 (message "Imóvel não encontrado."), Json (VObj one_listing)).
Proof.
  apply (update_unknown_id "42" (VObj revised) (Json (VObj one_listing))
           one_listing [VObj listed]).
  - reflexivity.
  - reflexivity.
  - reflexivity.
  - repeat constructor; [discriminate | vm_compute; discriminate].
Defined.

(** C3, as stated, fails: after two creates served at the same timestamp the
    Collection holds two records with the same id, and DELETE of that id
    removes both of them. *)
Lemma delete_removes_both_duplicates :
  let fs := run [Create 1700000000000 (VObj sample);
                 Create 1700000000000 (VObj sample)] Absent in
  let p := VObj (<["id" := VStr "1700000000000"]> sample) in
  collection fs = VArr [p; p]
  ∧ fst (delete_imoveis "1700000000000" fs)
    = Response 200 (message "Imóvel apagado com sucesso.")
  ∧ collection (snd (delete_imoveis "1700000000000" fs)) = VArr [].
Proof. vm_compute. by repeat split. Qed.

(** C3, amended.  On a Collection of records, DELETE with an id that no
    record has answers 404 and leaves the file holding the loaded document;
    with an id that some record has it answers 200 and writes the document
    with the Collection without the records of that id, in the same order,
    which is shorter; when
    exactly one record has the id, exactly that record is removed and the
    length shrinks by exactly one. *)
Theorem delete_removes_matching id fs o l :
  loads fs (VObj o) →
  o !! "properties" = Some (VArr l) →
  Forall (λ p, p ≠ VNull) l →
  let kept := filter (λ p, record_id p ≠ Some id) l in
  (Forall (λ p, record_id p ≠ Some id) l →
   delete_imoveis id fs
   = (Response 404 (message "Imóvel não encontrado para apagar."),
      Json (VObj o)))
  ∧ (Exists (λ p, record_id p = Some id) l →
     delete_imoveis id fs
     = (Response 200 (message "Imóvel apagado com sucesso."),
        Json (to_json (VObj (<["properties" := VArr kept]> o))))
     ∧ length kept < length l)
  ∧ (∀ l1 p l2, l = l1 ++ p :: l2 → record_id p = Some id →
       Forall (λ q, record_id q ≠ Some id) (l1 ++ l2) →
       kept = l1 ++ l2 ∧ length l = S (length kept)).
Proof.
  intros Hfs Hl Hrec kept.
  rewrite (delete_imoveis_obj fs o Hfs id l Hl), (filter_out_filter id l Hrec).
  fold kept. split; [|split].
  - intros Hnone. unfold kept. rewrite filter_all_Forall by done.
    by rewrite Nat.eqb_refl.
  - intros (p & Hp & Hid)%Exists_exists.
    assert (length kept < length l) as Hlt.
    { apply (length_filter_lt _ l p); [done|]. by intros []. }
    split; [|done]. by rewrite (proj2 (Nat.eqb_neq _ _)) by lia.
  - intros l1 p l2 -> Hp [H1 H2]%Forall_app. unfold kept.
    rewrite filter_app, filter_cons, decide_False by (by intros []).
    rewrite !filter_all_Forall by done.
    split; [done|]. rewrite !length_app. simpl. lia.
Qed.

Lemma delete_removes_matching_witness :
  let kept := filter (λ p, record_id p ≠ Some "1700000000000") [VObj listed] in
  (Forall (λ p, record_id p ≠ Some "1700000000000") [VObj listed] →
   delete_imoveis "1700000000000" (Json (VObj one_listing))
   = (Response 404 (message "Imóvel não encontrado para apagar."),
      Json (VObj one_listing)))
  ∧ (Exists (λ p, record_id p = Some "1700000000000") [VObj listed] →
     delete_imoveis "1700000000000" (Json (VObj one_listing))
     = (Response 200 (message "Imóvel apagado com sucesso."),
        Json (to_json (VObj (<["properties" := VArr kept]> one_listing))))
     ∧ length kept < length [VObj listed])
  ∧ (∀ l1 p l2, [VObj listed] = l1 ++ p :: l2 →
       record_id p = Some "1700000000000" →
       Forall (λ q, record_id q ≠ Some "1700000000000") (l1 ++ l2) →
       kept = l1 ++ l2 ∧ length [VObj listed] = S (length kept)).
Proof.
  apply (delete_removes_matching "1700000000000" (Json (VObj one_listing))
           one_listing [VObj listed]).
  - reflexivity.
  - reflexivity.
  - repeat constructor. discriminate.
Defined.

(** ** The file: C9, C10 *)

(** C9, as stated, fails: a file that is well-formed JSON and holds a record
    whose [price] is the literal [1e400] loads with the price infinite;
    saving what was loaded writes the price as [null], so the round trip
    changes the value of a field and the Collection listed afterwards is not
    the one that was loaded.  (A price spelled [9007199254740993] is read as
    the binary64 number 9007199254740992, and saved as that.) *)
Lemma round_trip_writes_infinity_as_null :
  let record := <["price" := VNum (S754_infinity false)]> listed in
  let doc := VObj {[ "properties" := VArr [VObj record] ]} in
  loads (Json doc) doc
  ∧ save_load (Json doc)
    = (Ok (), Json (VObj {[ "properties"
                            := VArr [VObj (<["price" := VNull]> listed)] ]}))
  ∧ record !! "price" ≠ Some VNull
  ∧ readData (snd (save_load (Json doc))) ≠ readData (Json doc)
  ∧ save_load (Json (VObj {[ "properties"
        := VArr [VObj (<["price" := VNum 9007199254740993]> listed)] ]}))
    = (Ok (), Json (VObj {[ "properties"
        := VArr [VObj (<["price" := VNum 9007199254740992]> listed)] ]})).
Proof.
  split; [reflexivity|]. split; [vm_compute; reflexivity|].
  split; [by vm_compute|]. split; [vm_compute; intros [=]|].
  vm_compute. reflexivity.
Qed.

(** C9, amended.  Saving what was just loaded from a file that holds a
    document leaves the document as JSON writes it: the same records, in the
    same order, each with the same keys, and every value the same but for a
    number that is infinite, written [null], and negative zero, written [0].
    The file holds the very document that was loaded exactly when no number
    in it is of these, as in every file that [writeData] has written; a
    second round trip changes nothing.  On an absent file the round trip
    leaves the fresh empty Document, and on a file that is not JSON the load
    throws and nothing is written. *)
Theorem save_load_round_trip doc :
  save_load (Json doc) = (Ok (), Json (to_json doc))
  ∧ (∀ o l, doc = VObj o → o !! "properties" = Some (VArr l) →
       collection (snd (save_load (Json doc))) = VArr (to_json <$> l))
  ∧ (∀ r, to_json (VObj r) = VObj (to_json <$> r) ∧ dom (to_json <$> r) = dom r)
  ∧ (save_load (Json doc) = (Ok (), Json doc) ↔ json_exact doc)
  ∧ (∀ data fs, save_load (snd (writeData data fs)) = (Ok (), snd (writeData data fs)))
  ∧ save_load (snd (save_load (Json doc))) = save_load (Json doc)
  ∧ save_load Absent = (Ok (), Json empty_document)
  ∧ save_load Malformed = (Throw, Malformed).
Proof.
  assert (∀ d, save_load (Json d) = (Ok (), Json (to_json d))) as Heq.
  { intros d. unfold save_load. by io_read (loads_Json d). }
  rewrite !Heq. cbn [snd].
  split; [done|]. split; [|split; [|split; [|split; [|split; [|done]]]]].
  - intros o l -> Hl. unfold collection.
    rewrite (get_imoveis_obj (Json (to_json (VObj o))) (to_json <$> o));
      [|apply loads_Json].
    cbn [fst body]. rewrite lookup_fmap, Hl. cbn [fmap option_fmap option_map or_empty].
    change (to_json (VArr l)) with (VArr (to_json <$> l)).
    cbn [truthy]. change (VArr (to_json <$> l)) with (to_json (VArr l)).
    apply to_json_idemp.
  - intros r. split; [done|]. apply dom_fmap_L.
  - split.
    + intros [= Hd]. rewrite <- Hd. apply to_json_exact.
    + intros Hd. by rewrite (json_exact_to_json _ Hd).
  - intros data fs. rewrite writeData_any. cbn [snd].
    by rewrite Heq, to_json_idemp.
  - by rewrite Heq, to_json_idemp.
Qed.

(** C10.  When the document is an object without a [properties] key, GET
    answers 200 with the empty array; POST of a candidate that passes
    validation answers 201 and writes the document with a [properties] array
    that holds the new record alone; PUT of such a candidate and DELETE answer 500 with the
    message of their catch branch and write nothing; PUT answers 404 for no
    candidate at all. *)
Theorem missing_properties_key now id c o :
  o !! "properties" = None →
  validateProperty (VObj c) = Ok None →
  let fs := Json (VObj o) in
  let stored := VObj (<["id" := VStr (pretty now)]> c) in
  get_imoveis fs = (Response 200 (VArr []), fs)
  ∧ post_imoveis now (VObj c) fs
    = (Response 201 (to_json stored),
       Json (to_json (VObj (<["properties" := VArr [stored]]> o))))
  ∧ put_imoveis id (VObj c) fs
    = (Response 500 (message "Erro ao atualizar o imóvel."), fs)
  ∧ delete_imoveis id fs
    = (Response 500 (message "Erro ao apagar o imóvel."), fs)
  ∧ (∀ v, status (fst (put_imoveis id v fs)) ≠ 404%Z).
Proof.
  intros Ho Hv fs stored. subst fs stored. split; [|split; [|split; [|split]]].
  - rewrite (get_imoveis_obj _ o (loads_Json _)). by rewrite Ho.
  - rewrite (post_imoveis_valid _ o (loads_Json _) now c []); [done..|].
    by rewrite Ho.
  - unfold put_imoveis, try_catch. rewrite Hv.
    io_read (loads_Json (VObj o)). rewrite Ho. by io_simpl.
  - unfold delete_imoveis, try_catch.
    io_read (loads_Json (VObj o)). rewrite Ho. by io_simpl.
  - intros v. unfold put_imoveis, try_catch.
    destruct (validateProperty v) as [[e|]|]; io_simpl; [done| |done].
    rewrite (loads_readData _ _ (loads_Json (VObj o))). io_simpl.
    rewrite Ho. by io_simpl.
Qed.

Lemma missing_properties_key_witness :
  let fs := Json (VObj ∅) in
  let stored := VObj (<["id" := VStr (pretty 1700000000000%Z)]> sample) in
  get_imoveis fs = (Response 200 (VArr []), fs)
  ∧ post_imoveis 1700000000000 (VObj sample) fs
    = (Response 201 (to_json stored),
       Json (to_json (VObj (<["properties" := VArr [stored]]> ∅))))
  ∧ put_imoveis "1700000000000" (VObj sample) fs
    = (Response 500 (message "Erro ao atualizar o imóvel."), fs)
  ∧ delete_imoveis "1700000000000" fs
    = (Response 500 (message "Erro ao apagar o imóvel."), fs)
  ∧ (∀ v, status (fst (put_imoveis "1700000000000" v fs)) ≠ 404%Z).
Proof.
  apply (missing_properties_key 1700000000000 "1700000000000" sample ∅).
  - reflexivity.
  - reflexivity.
Defined.

(** ** Ids along a run: C1, C8 *)

Lemma record_id_not_null p s : record_id p = Some s → p ≠ VNull.
Proof. by destruct p. Qed.

Lemma created_at_mono T T' p : created_at T p → created_at (T ++ T') p.
Proof. intros (t & Ht & Hp). exists t. split; [|done]. apply elem_of_app; auto. Qed.

Lemma created_at_not_null T p : created_at T p → p ≠ VNull.
Proof. intros (t & _ & Hp). by eapply record_id_not_null. Qed.

(** A timestamp that is none of [T] gives an id that no record has. *)
Lemma fresh_timestamp_fresh_id T now l :
  Forall (created_at T) l → now ∉ T → Some (pretty now) ∉ ids l.
Proof.
  intros Hl Hnow (p & Hid & Hp)%list_elem_of_fmap.
  eapply Forall_forall in Hl as (t & Ht & Heq); [|done].
  rewrite Heq in Hid. injection Hid as Hid. apply (inj pretty) in Hid as ->.
  done.
Qed.

Lemma Forall_filter_keep {A} (P Q : A → Prop) `{!∀ a, Decision (Q a)} (xs : list A) :
  Forall P xs → Forall P (filter Q xs).
Proof.
  induction 1 as [|a xs Ha _ IH]; [constructor|].
  rewrite filter_cons. destruct (decide (Q a)); [by constructor | done].
Qed.

Lemma store_inv_Absent : store_inv [] Absent.
Proof.
  exists {[ "properties" := VArr [] ]}, []. repeat split; [constructor..].
Qed.

Lemma store_inv_loaded T o l :
  o !! "properties" = Some (VArr l) →
  Forall (created_at T) l → NoDup (ids l) →
  store_inv T (Json (VObj o)).
Proof. intros Ho Hl Hnd. by exists o, l. Qed.

(** A document the server writes with a Collection of such records. *)
Lemma store_inv_written T o l :
  Forall (created_at T) l → NoDup (ids l) →
  store_inv T (Json (to_json (VObj (<["properties" := VArr l]> o)))).
Proof.
  intros Hl Hnd. rewrite to_json_document.
  eexists _, _. split; [apply loads_Json|].
  split; [apply lookup_insert_eq|]. split.
  - apply Forall_fmap. eapply Forall_impl; [exact Hl|].
    intros p (t & Ht & Hp). exists t. by rewrite record_id_to_json.
  - by rewrite ids_to_json.
Qed.

(** What GET lists from a document the server wrote. *)
Lemma get_imoveis_written o l :
  let fs := Json (to_json (VObj (<["properties" := VArr l]> o))) in
  get_imoveis fs = (Response 200 (VArr (to_json <$> l)), fs).
Proof.
  intros fs. subst fs. rewrite to_json_document.
  rewrite (get_imoveis_obj _ _ (loads_Json _)), lookup_insert_eq.
  cbn [or_empty truthy]. change (VArr (to_json <$> l)) with (to_json (VArr l)).
  by rewrite to_json_idemp.
Qed.

(** A file in which every number is written as read loads as such a
    document. *)
Lemma exact_file_loads fs doc : exact_file fs → loads fs doc → json_exact doc.
Proof.
  intros Hfs Hdoc. destruct fs as [| |d].
  - injection Hdoc as <-. apply exact_obj, map_Forall_singleton, exact_arr.
    constructor.
  - discriminate.
  - injection Hdoc as <-. by apply Hfs.
Qed.

Lemma json_exact_or_empty o l :
  json_exact (VObj o) → or_empty (o !! "properties") = VArr l →
  to_json <$> l = l.
Proof.
  intros Ho Hl. inversion Ho as [| | | | | |? Hall]; subst.
  assert (json_exact (VArr l)) as Hex.
  { rewrite <- Hl. unfold or_empty.
    destruct (o !! "properties") as [p|] eqn:Hp;
      [|apply exact_arr; constructor].
    destruct (truthy (Some p)); [|apply exact_arr; constructor].
    by apply (Hall "properties"). }
  apply json_exact_to_json in Hex. by injection Hex.
Qed.

(** GET keeps the invariant. *)
Lemma store_inv_get T fs : store_inv T fs → store_inv T (snd (get_imoveis fs)).
Proof.
  intros (o & l & Hfs & Ho & Hl & Hnd).
  rewrite (get_imoveis_obj fs o Hfs). by eapply store_inv_loaded.
Qed.

(** POST keeps the invariant when the timestamp it reads, if it reads one,
    was not used before. *)
Lemma store_inv_post T fs now v :
  store_inv T fs → NoDup (T ++ timestamps [Create now v]) →
  store_inv (T ++ timestamps [Create now v]) (snd (post_imoveis now v fs)).
Proof.
  intros (o & l & Hfs & Ho & Hl & Hnd). unfold timestamps. simpl.
  destruct (validateProperty v) as [[e|]|] eqn:Hv; simpl;
    rewrite ?app_nil_r; intros HT.
  - rewrite (post_imoveis_invalid now v e fs Hv). by exists o, l.
  - assert (now ∉ T) as Hnow.
    { apply NoDup_app in HT as (_ & Hdisj & _).
      intros Hin. apply (Hdisj now Hin), list_elem_of_here. }
    assert (Forall (created_at (T ++ [now])) l) as Hl'.
    { eapply Forall_impl; [exact Hl|]. intros p. apply created_at_mono. }
    destruct (validateProperty_object v Hv) as [c ->].
    rewrite (post_imoveis_valid fs o Hfs now c l Hv) by by rewrite Ho.
    cbn [snd]. apply store_inv_written.
    + apply Forall_app. split; [done|]. constructor; [|constructor].
      exists now. split; [apply elem_of_app; right; apply list_elem_of_here|].
      simpl. by rewrite lookup_insert_eq.
    + unfold ids. rewrite fmap_app. apply NoDup_app. split; [done|]. split.
      * intros x Hx ->%list_elem_of_singleton. revert Hx.
        simpl. rewrite lookup_insert_eq.
        by apply fresh_timestamp_fresh_id with T.
      * apply NoDup_singleton.
  - unfold post_imoveis, try_catch. rewrite Hv. io_simpl. by exists o, l.
Qed.

(** PUT keeps the invariant: the merged record has the id of the one it
    replaces. *)
Lemma store_inv_put T fs id v :
  store_inv T fs → store_inv T (snd (put_imoveis id v fs)).
Proof.
  intros (o & l & Hfs & Ho & Hl & Hnd).
  destruct (validateProperty v) as [[e|]|] eqn:Hv.
  - rewrite (put_imoveis_invalid id v e fs Hv). by exists o, l.
  - destruct (validateProperty_object v Hv) as [c ->].
    rewrite (put_imoveis_valid fs o Hfs id c l Hv Ho).
    destruct (findIndex id l) as [[i|]|] eqn:Hi;
      [|by eapply store_inv_loaded..].
    apply findIndex_Some in Hi as (r & Hr & Hid).
    cbn [snd].
    assert (record_id (VObj (<["id" := VStr id]> (c ∪ spread (l !!! i))))
            = record_id (VObj r)) as Hsame.
    { simpl. by rewrite lookup_insert_eq, Hid. }
    apply store_inv_written.
    + apply Forall_insert; [done|].
      eapply Forall_lookup_1 in Hl as (t & Ht & Heq); [|exact Hr].
      exists t. split; [done|]. by rewrite Hsame.
    + unfold ids. rewrite list_fmap_insert, Hsame.
      rewrite list_insert_id; [done|]. by rewrite list_lookup_fmap, Hr.
  - unfold put_imoveis, try_catch. rewrite Hv. io_simpl. by exists o, l.
Qed.

(** DELETE keeps the invariant: what is kept is a sublist. *)
Lemma store_inv_delete T fs id :
  store_inv T fs → store_inv T (snd (delete_imoveis id fs)).
Proof.
  intros (o & l & Hfs & Ho & Hl & Hnd).
  rewrite (delete_imoveis_obj fs o Hfs id l Ho).
  rewrite filter_out_filter
    by (eapply Forall_impl; [exact Hl|]; intros p; apply created_at_not_null).
  destruct (_ =? _)%nat; [by eapply store_inv_loaded|].
  cbn [snd]. apply store_inv_written.
  - by apply Forall_filter_keep.
  - eapply sublist_NoDup; [exact Hnd|].
    apply fmap_sublist, sublist_filter.
Qed.

(** Every request keeps the invariant. *)
Lemma store_inv_serve T fs (req : request) :
  store_inv T fs → NoDup (T ++ timestamps [req]) →
  store_inv (T ++ timestamps [req]) (snd (serve req fs)).
Proof.
  intros Hinv HT. destruct req as [|now v|id v|id].
  - unfold timestamps; simpl. rewrite app_nil_r. by apply store_inv_get.
  - by apply store_inv_post.
  - unfold timestamps; simpl. rewrite app_nil_r. by apply store_inv_put.
  - unfold timestamps; simpl. rewrite app_nil_r. by apply store_inv_delete.
Qed.

(** Along a run whose creates read timestamps that are all different, the
    invariant holds after every request. *)
Lemma store_inv_run rs T fs :
  store_inv T fs → NoDup (T ++ timestamps rs) →
  store_inv (T ++ timestamps rs) (run rs fs).
Proof.
  revert T fs. induction rs as [|req rs IH]; intros T fs Hinv Hnd.
  - unfold timestamps. simpl. by rewrite app_nil_r.
  - change (req :: rs) with ([req] ++ rs) in *. unfold timestamps in *.
    rewrite omap_app, (assoc_L (++)) in Hnd |- *.
    unfold run. rewrite foldl_app. apply IH; [|done].
    apply store_inv_serve; [done|]. by apply NoDup_app in Hnd as (? & _ & _).
Qed.

(** C8.  Along every run from the absent file whose creates are served at
    timestamps that are all different, with any updates and deletes in
    between, the Collection has no id twice, and a further create at a
    timestamp not used before stores a record whose id no record already
    there has, so that ids stay unique, in the Collection as it is written
    and listed afterwards; and there is a run of creates served at one and
    the same timestamp after which the id of the new record is already in
    the Collection and the Collection has an id twice. *)
Theorem ids_unique_unless_same_timestamp :
  (∀ rs now c,
     NoDup (timestamps rs ++ [now]) →
     validateProperty (VObj c) = Ok None →
     ∃ o l,
       loads (run rs Absent) (VObj o)
       ∧ o !! "properties" = Some (VArr l)
       ∧ NoDup (ids l)
       ∧ snd (post_imoveis now (VObj c) (run rs Absent))
         = Json (to_json (VObj (<["properties" :=
                          VArr (l ++ [VObj (<["id" := VStr (pretty now)]> c)])]> o)))
       ∧ (Some (pretty now) ∉ ids l)
       ∧ NoDup (ids (l ++ [VObj (<["id" := VStr (pretty now)]> c)]))
       ∧ ∃ l', collection (snd (post_imoveis now (VObj c) (run rs Absent))) = VArr l'
          ∧ ids l' = ids (l ++ [VObj (<["id" := VStr (pretty now)]> c)])
          ∧ NoDup (ids l'))
  ∧ (∃ rs now c l l',
       validateProperty (VObj c) = Ok None
       ∧ collection (run rs Absent) = VArr l
       ∧ (Some (pretty now) ∈ ids l)
       ∧ collection (snd (post_imoveis now (VObj c) (run rs Absent))) = VArr l'
       ∧ ¬ NoDup (ids l')).
Proof.
  split.
  - intros rs now c Hnd Hv.
    apply NoDup_app in Hnd as Hsplit. destruct Hsplit as (Hrs & Hdisj & _).
    destruct (store_inv_run rs [] Absent store_inv_Absent Hrs)
      as (o & l & Hfs & Ho & Hl & Hids).
    simpl in Hl.
    assert (now ∉ timestamps rs) as Hnow.
    { intros Hin. apply (Hdisj now Hin), list_elem_of_here. }
    assert (NoDup (ids (l ++ [VObj (<["id" := VStr (pretty now)]> c)]))) as Hnew.
    { unfold ids. rewrite fmap_app. apply NoDup_app. split; [done|]. split.
      - intros x Hx ->%list_elem_of_singleton. revert Hx.
        simpl. rewrite lookup_insert_eq.
        by apply fresh_timestamp_fresh_id with (timestamps rs).
      - apply NoDup_singleton. }
    assert (snd (post_imoveis now (VObj c) (run rs Absent))
            = Json (to_json (VObj (<["properties" :=
                VArr (l ++ [VObj (<["id" := VStr (pretty now)]> c)])]> o))))
      as Hpost.
    { by rewrite (post_imoveis_valid _ o Hfs now c l Hv) by by rewrite Ho. }
    exists o, l. split; [done|]. split; [done|]. split; [done|].
    split; [done|]. split.
    { by apply fresh_timestamp_fresh_id with (timestamps rs). }
    split; [done|]. eexists. rewrite Hpost. unfold collection.
    rewrite get_imoveis_written. split; [reflexivity|].
    rewrite ids_to_json. by split.
  - exists [Create 1700000000000 (VObj sample)], 1700000000000%Z, revised.
    eexists _, _. split; [reflexivity|]. split; [vm_compute; reflexivity|].
    split; [vm_compute; apply list_elem_of_here|].
    split; [vm_compute; reflexivity|].
    vm_compute. intros Hnd. apply NoDup_cons in Hnd as [Hnotin _].
    apply Hnotin, list_elem_of_here.
Qed.

Lemma ids_unique_unless_same_timestamp_witness :
  ∃ o l,
    loads (run [Create 1700000000000 (VObj sample); Remove "1"] Absent) (VObj o)
    ∧ o !! "properties" = Some (VArr l)
    ∧ NoDup (ids l)
    ∧ snd (post_imoveis 1700000000001 (VObj revised)
             (run [Create 1700000000000 (VObj sample); Remove "1"] Absent))
      = Json (to_json (VObj (<["properties" :=
                       VArr (l ++ [VObj (<["id" := VStr (pretty 1700000000001%Z)]>
                                           revised)])]> o)))
    ∧ (Some (pretty 1700000000001%Z) ∉ ids l)
    ∧ NoDup (ids (l ++ [VObj (<["id" := VStr (pretty 1700000000001%Z)]> revised)]))
    ∧ ∃ l', collection (snd (post_imoveis 1700000000001 (VObj revised)
             (run [Create 1700000000000 (VObj sample); Remove "1"] Absent)))
            = VArr l'
       ∧ ids l' = ids (l ++ [VObj (<["id" := VStr (pretty 1700000000001%Z)]> revised)])
       ∧ NoDup (ids l').
Proof.
  apply (proj1 ids_unique_unless_same_timestamp
           [Create 1700000000000 (VObj sample); Remove "1"] 1700000000001%Z
           revised).
  - vm_compute. repeat constructor; [|apply not_elem_of_nil..].
    intros Hin%list_elem_of_singleton. discriminate.
  - reflexivity.
Defined.

(** C1, as stated, fails: a create served at the timestamp of an earlier
    create stores a record whose id a record of the Collection already has
    (and the id the candidate submitted is replaced); and a candidate whose
    [bedrooms] is infinite, as the literal [1e400] is read, passes validation
    and is stored, returned and listed with [bedrooms] null. *)
Lemma create_reuses_the_id_of_its_timestamp :
  let fs := run [Create 1700000000000 (VObj sample)] Absent in
  let stored := VObj (<["id" := VStr "1700000000000"]> revised) in
  validateProperty (VObj revised) = Ok None
  ∧ revised !! "id" = Some (VStr "x")
  ∧ collection fs = VArr [VObj (<["id" := VStr "1700000000000"]> sample)]
  ∧ fst (post_imoveis 1700000000000 (VObj revised) fs) = Response 201 stored
  ∧ record_id stored ∈ ids [VObj (<["id" := VStr "1700000000000"]> sample)]
  ∧ validateProperty (VObj overflowing) = Ok None
  ∧ overflowing !! "bedrooms" = Some (VNum (S754_infinity false))
  ∧ ∃ m,
      fst (post_imoveis 1700000000001 (VObj overflowing) fs)
      = Response 201 (VObj m)
      ∧ m !! "bedrooms" = Some VNull
      ∧ collection (snd (post_imoveis 1700000000001 (VObj overflowing) fs))
        = VArr [VObj (<["id" := VStr "1700000000000"]> sample); VObj m].
Proof.
  split; [reflexivity|]. split; [reflexivity|].
  split; [vm_compute; reflexivity|]. split; [vm_compute; reflexivity|].
  split; [vm_compute; apply list_elem_of_here|].
  split; [reflexivity|]. split; [reflexivity|].
  eexists. split; [vm_compute; reflexivity|]. split; by vm_compute.
Qed.

(** C1, amended.  For a candidate that passes validation and a document
    whose Collection is [l], POST answers 201 with the stored record, which
    is the candidate with [id] set to the decimal form of the timestamp, as
    JSON writes it, and writes the document with that record appended at the
    end of [l]; a GET that follows answers with the records of [l], which are
    those that were listed before when every number of the file is written
    as read, followed by the stored record.  The stored record has every
    submitted field other than [id], with the value JSON writes for the
    submitted one: the submitted value itself unless an infinite number or a
    negative zero occurs in it; and the id is one no record of [l] has
    whenever the records of [l] carry the ids of other timestamps. *)
Theorem create_then_list now c fs o l :
  validateProperty (VObj c) = Ok None →
  loads fs (VObj o) →
  or_empty (o !! "properties") = VArr l →
  let stored := to_json <$> <["id" := VStr (pretty now)]> c in
  let fs' := Json (to_json (VObj (<["properties" :=
                     VArr (l ++ [VObj (<["id" := VStr (pretty now)]> c)])]> o))) in
  post_imoveis now (VObj c) fs = (Response 201 (VObj stored), fs')
  ∧ get_imoveis fs'
    = (Response 200 (VArr ((to_json <$> l) ++ [VObj stored])), fs')
  ∧ (exact_file fs →
     get_imoveis fs' = (Response 200 (VArr (l ++ [VObj stored])), fs'))
  ∧ (∀ k, k ≠ "id" → stored !! k = to_json <$> c !! k)
  ∧ (∀ k v, k ≠ "id" → c !! k = Some v → json_exact v → stored !! k = Some v)
  ∧ record_id (VObj stored) = Some (pretty now)
  ∧ (Forall (λ p, ∃ t, t ≠ now ∧ record_id p = Some (pretty t)) l →
     Some (pretty now) ∉ ids l).
Proof.
  intros Hv Hfs Hl stored fs'. subst stored fs'.
  assert (get_imoveis (Json (to_json (VObj (<["properties" :=
              VArr (l ++ [VObj (<["id" := VStr (pretty now)]> c)])]> o))))
          = (Response 200 (VArr ((to_json <$> l)
               ++ [VObj (to_json <$> <["id" := VStr (pretty now)]> c)])),
             Json (to_json (VObj (<["properties" :=
              VArr (l ++ [VObj (<["id" := VStr (pretty now)]> c)])]> o)))))
    as Hget.
  { rewrite get_imoveis_written. by rewrite fmap_app. }
  split; [by apply (post_imoveis_valid fs o Hfs)|].
  split; [done|]. split; [|split; [|split; [|split]]].
  - intros Hex. rewrite Hget.
    by rewrite (json_exact_or_empty o l (exact_file_loads _ _ Hex Hfs) Hl).
  - intros k Hk. by rewrite lookup_fmap, lookup_insert_ne.
  - intros k v Hk Hc Hex. rewrite lookup_fmap, lookup_insert_ne by done.
    rewrite Hc. simpl. by rewrite (json_exact_to_json _ Hex).
  - simpl. by rewrite lookup_fmap, lookup_insert_eq.
  - intros Hother (p & Hid & Hp)%list_elem_of_fmap.
    eapply Forall_forall in Hother as (t & Ht & Heq); [|done].
    rewrite Heq in Hid. injection Hid as Hid. by apply (inj pretty) in Hid.
Qed.

Lemma create_then_list_witness :
  let stored := to_json <$> <["id" := VStr (pretty 1700000000001%Z)]> revised in
  let fs' := Json (to_json (VObj (<["properties" :=
                VArr ([VObj listed]
                      ++ [VObj (<["id" := VStr (pretty 1700000000001%Z)]> revised)])]>
                one_listing))) in
  post_imoveis 1700000000001 (VObj revised) (Json (VObj one_listing))
  = (Response 201 (VObj stored), fs')
  ∧ get_imoveis fs'
    = (Response 200 (VArr ((to_json <$> [VObj listed]) ++ [VObj stored])), fs')
  ∧ (exact_file (Json (VObj one_listing)) →
     get_imoveis fs' = (Response 200 (VArr ([VObj listed] ++ [VObj stored])), fs'))
  ∧ (∀ k, k ≠ "id" → stored !! k = to_json <$> revised !! k)
  ∧ (∀ k v, k ≠ "id" → revised !! k = Some v → json_exact v →
       stored !! k = Some v)
  ∧ record_id (VObj stored) = Some (pretty 1700000000001%Z)
  ∧ (Forall (λ p, ∃ t, t ≠ 1700000000001%Z ∧ record_id p = Some (pretty t))
       [VObj listed] →
     Some (pretty 1700000000001%Z) ∉ ids [VObj listed]).
Proof.
  apply (create_then_list 1700000000001 revised (Json (VObj one_listing))
           one_listing [VObj listed]).
  - reflexivity.
  - reflexivity.
  - reflexivity.
Defined.
(** * Further properties of the code *)

(** ** [validateProperty] *)

Lemma check_required_obj_total c fields : check_required (VObj c) fields ≠ Throw.
Proof.
  induction fields as [|h fields IH]; [done|].
  rewrite check_required_obj_cons. by destruct (missing (c !! h)).
Qed.

(** On an object [validateProperty] does not throw. *)
Lemma validateProperty_obj_total c : validateProperty (VObj c) ≠ Throw.
Proof.
  rewrite validateProperty_obj. pose proof (check_required_obj_total c requiredFields).
  destruct (check_required (VObj c) requiredFields) as [[e|]|]; [done| |done].
  by destruct (forallb _ typed_fields).
Qed.

(** [validateProperty] throws on [null] only. *)
Lemma validateProperty_Throw v : validateProperty v = Throw ↔ v = VNull.
Proof.
  split; [|by intros ->].
  destruct v as [| | | | |c]; try done. intros Hv.
  by apply validateProperty_obj_total in Hv.
Qed.

(** A required field that is missing is answered with the message of the
    first missing one. *)
Lemma first_missing_rejected c g :
  g ∈ requiredFields → missing (c !! g) = true →
  ∃ pre f suf,
    requiredFields = pre ++ f :: suf
    ∧ Forall (λ h, missing (c !! h) = false) pre
    ∧ missing (c !! f) = true
    ∧ g ∈ f :: suf
    ∧ validateProperty (VObj c) = Ok (Some (required_message f)).
Proof.
  intros Hg Hmiss.
  destruct (first_missing_split c requiredFields g Hg Hmiss)
    as (pre & f & suf & Hsplit & Hpre & Hf & Hin).
  exists pre, f, suf. repeat split; try done.
  rewrite validateProperty_obj, Hsplit.
  by rewrite (check_required_first c pre f suf Hpre Hf).
Qed.

Lemma typed_fields_required f : f ∈ typed_fields → f ∈ requiredFields.
Proof.
  intros Hf%list_elem_of_In. simpl in Hf.
  destruct Hf as [<-|[<-|[<-|[<-|[<-|[]]]]]]; unfold requiredFields; in_list.
Qed.

(** X1.  The three outcomes of [validateProperty] on an object: [null]
    exactly when the twelve required fields are present and the five tested
    ones are numbers; the type message exactly when the twelve are present
    and one of the five is not a number; and, whatever the types, the
    required-field message of the first missing field as soon as one is
    missing. *)
Theorem validation_outcomes c :
  (validateProperty (VObj c) = Ok None ↔
     Forall (λ h, missing (c !! h) = false) requiredFields
     ∧ Forall (λ f, is_number (c !! f) = true) typed_fields)
  ∧ (validateProperty (VObj c) = Ok (Some type_message) ↔
       Forall (λ h, missing (c !! h) = false) requiredFields
       ∧ ¬ Forall (λ f, is_number (c !! f) = true) typed_fields)
  ∧ (∀ pre f suf,
       requiredFields = pre ++ f :: suf →
       Forall (λ h, missing (c !! h) = false) pre →
       missing (c !! f) = true →
       validateProperty (VObj c) = Ok (Some (required_message f))).
Proof.
  split; [apply validateProperty_None|]. split.
  - split.
    + intros Hv. destruct (validateProperty_Some c _ Hv)
        as [(f & _ & _ & Heq)|[_ Hall]].
      { symmetry in Heq. by apply required_message_not_type in Heq. }
      split; [done|]. intros Hnum.
      assert (validateProperty (VObj c) = Ok None) as Hnone
        by by apply validateProperty_None.
      congruence.
    + intros [Hall Hnum].
      destruct (validateProperty (VObj c)) as [[e|]|] eqn:Hv.
      * destruct (validateProperty_Some c e Hv) as [(f & Hf & Hmiss & _)|[-> _]];
          [|done].
        eapply Forall_forall in Hall; [|done]. congruence.
      * by apply validateProperty_None in Hv as [_ ?].
      * by apply validateProperty_obj_total in Hv.
  - intros pre f suf Hsplit Hpre Hf.
    rewrite validateProperty_obj, Hsplit.
    by rewrite (check_required_first c pre f suf Hpre Hf).
Qed.

Lemma validation_outcomes_witness :
  validateProperty (VObj (delete "title" (<["suites" := VStr "2"]> sample)))
  = Ok (Some (required_message "title")).
Proof.
  apply (proj2 (proj2 (validation_outcomes
                         (delete "title" (<["suites" := VStr "2"]> sample))))
           [] "title" (tail requiredFields)).
  - reflexivity.
  - constructor.
  - reflexivity.
Defined.

(** X2.  A required field supplied as the empty string, [null] or [false]
    counts as missing: POST answers 400 with the required-field message of
    the first missing field (that field or one before it) and leaves the file
    as it was. *)
Theorem falsy_field_is_missing now c fs g :
  g ∈ requiredFields →
  c !! g = Some (VStr "") ∨ c !! g = Some VNull ∨ c !! g = Some (VBool false) →
  ∃ pre f suf,
    requiredFields = pre ++ f :: suf
    ∧ Forall (λ h, missing (c !! h) = false) pre
    ∧ missing (c !! f) = true
    ∧ g ∈ f :: suf
    ∧ post_imoveis now (VObj c) fs
      = (Response 400 (message (required_message f)), fs).
Proof.
  intros Hg Hfalsy.
  destruct (first_missing_rejected c g Hg)
    as (pre & f & suf & Hsplit & Hpre & Hf & Hin & Hv).
  { by destruct Hfalsy as [->|[->| ->]]. }
  exists pre, f, suf. repeat split; try done. by apply post_imoveis_invalid.
Qed.

Lemma falsy_field_is_missing_witness :
  ∃ pre f suf,
    requiredFields = pre ++ f :: suf
    ∧ Forall (λ h, missing (<["description" := VStr ""]> sample !! h) = false) pre
    ∧ missing (<["description" := VStr ""]> sample !! f) = true
    ∧ "description" ∈ f :: suf
    ∧ post_imoveis 1700000000000 (VObj (<["description" := VStr ""]> sample))
        (Json (VObj one_listing))
      = (Response 400 (message (required_message f)), Json (VObj one_listing)).
Proof.
  apply (falsy_field_is_missing 1700000000000
           (<["description" := VStr ""]> sample) (Json (VObj one_listing))
           "description").
  - unfold requiredFields. in_list.
  - left. reflexivity.
Defined.

(** X3.  A body that is an array, the one kind of body other than an
    object that [express.json()] hands to the routes: an array has no
    [title], so that POST and PUT answer 400 with the required-field message
    of [title], whatever the elements of the array, the path id and the
    file, which is not even read. *)
Theorem array_body now id a fs :
  validateProperty (VArr a) = Ok (Some (required_message "title"))
  ∧ post_imoveis now (VArr a) fs
    = (Response 400 (message (required_message "title")), fs)
  ∧ put_imoveis id (VArr a) fs
    = (Response 400 (message (required_message "title")), fs).
Proof.
  split; [done|].
  split; [by apply post_imoveis_invalid | by apply put_imoveis_invalid].
Qed.

(** X4.  [validateProperty] looks at nothing but the presence of the twelve
    required fields and the type of five of them: a field that is not
    required may be added, changed or given any value, and a required field
    other than the five tested ones (the six texts and [price]) may be given
    any present value of any type, without changing the outcome. *)
Theorem validation_ignores_the_rest c k v :
  (k ∉ requiredFields →
     validateProperty (VObj (<[k := v]> c)) = validateProperty (VObj c))
  ∧ (k ∉ typed_fields → missing (Some v) = false → missing (c !! k) = false →
       validateProperty (VObj (<[k := v]> c)) = validateProperty (VObj c)).
Proof.
  split.
  - intros Hk. apply validateProperty_ext.
    + intros h Hh. rewrite lookup_insert_ne; [done|]. by intros ->.
    + intros f Hf%typed_fields_required.
      rewrite lookup_insert_ne; [done|]. by intros ->.
  - intros Hk Hv Hc. apply validateProperty_ext.
    + intros h _. destruct (decide (k = h)) as [->|Hne].
      * by rewrite lookup_insert_eq, Hv, Hc.
      * by rewrite lookup_insert_ne.
    + intros f Hf. rewrite lookup_insert_ne; [done|]. by intros ->.
Qed.

Lemma validation_ignores_the_rest_witness :
  validateProperty (VObj (<["title" := VArr []]> sample))
  = validateProperty (VObj sample).
Proof.
  apply (proj2 (validation_ignores_the_rest sample "title" (VArr []))).
  - intros Hin%list_elem_of_In. simpl in Hin. intuition discriminate.
  - reflexivity.
  - reflexivity.
Defined.

(** X5.  PUT takes full records only: validation comes before the lookup,
    so a candidate that lacks a required field is answered 400 with the
    required-field message of the first missing field (that field or one
    before it), whether or not a record has the path id, and the file is left
    as it was. *)
Theorem update_requires_full_payload id c fs g :
  g ∈ requiredFields → c !! g = None →
  ∃ pre f suf,
    requiredFields = pre ++ f :: suf
    ∧ Forall (λ h, missing (c !! h) = false) pre
    ∧ missing (c !! f) = true
    ∧ g ∈ f :: suf
    ∧ put_imoveis id (VObj c) fs
      = (Response 400 (message (required_message f)), fs).
Proof.
  intros Hg Habsent.
  destruct (first_missing_rejected c g Hg)
    as (pre & f & suf & Hsplit & Hpre & Hf & Hin & Hv); [by rewrite Habsent|].
  exists pre, f, suf. repeat split; try done. by apply put_imoveis_invalid.
Qed.

Lemma update_requires_full_payload_witness :
  ∃ pre f suf,
    requiredFields = pre ++ f :: suf
    ∧ Forall (λ h, missing (({[ "title" := VStr "B" ]} : gmap string value) !! h)
                   = false) pre
    ∧ missing (({[ "title" := VStr "B" ]} : gmap string value) !! f) = true
    ∧ "price" ∈ f :: suf
    ∧ put_imoveis "1700000000000" (VObj {[ "title" := VStr "B" ]})
        (Json (VObj one_listing))
      = (Response 400 (message (required_message f)), Json (VObj one_listing)).
Proof.
  apply (update_requires_full_payload "1700000000000" {[ "title" := VStr "B" ]}
           (Json (VObj one_listing)) "price").
  - unfold requiredFields. in_list.
  - reflexivity.
Defined.

(** ** The file and failed requests *)

(** Runs a route on a file whose state is known. *)
Ltac io_run :=
  repeat progress
    (unfold mbind, io_bind, lift, mret, io_ret, res_json;
     cbn -[or_empty readData writeData to_json message];
     rewrite ?writeData_any, ?readData_Json, ?readData_Malformed,
       ?to_json_message).

(** Reading throws on a malformed file and otherwise loads a document, which
    is then what the file holds. *)
Lemma readData_cases fs :
  fs = Malformed ∨ ∃ doc, loads fs doc
    ∧ (fs = Json doc ∨ fs = Absent ∧ doc = empty_document).
Proof.
  destruct fs as [| |doc]; [right|by left|right].
  - exists empty_document. split; [apply loads_Absent | by right].
  - exists doc. split; [apply loads_Json | by left].
Qed.

(** GET writes nothing on a file that loads. *)
Lemma get_imoveis_loaded fs doc :
  loads fs doc → snd (get_imoveis fs) = Json doc.
Proof.
  intros Hfs. unfold get_imoveis, try_catch. io_read Hfs.
  by destruct doc.
Qed.

(** POST either succeeds, and writes, or writes nothing. *)
Lemma post_imoveis_loaded now v fs doc :
  loads fs doc →
  (succeeded (fst (post_imoveis now v fs))
   ∧ ∃ data, snd (post_imoveis now v fs) = Json (to_json data))
  ∨ snd (post_imoveis now v fs) = fs
  ∨ snd (post_imoveis now v fs) = Json doc.
Proof.
  intros Hfs. unfold post_imoveis, try_catch.
  destruct (validateProperty v) as [[e|]|]; io_simpl; [by right; left| |by right; left].
  rewrite (loads_readData _ _ Hfs). io_simpl.
  destruct doc as [| | | |a|o]; io_simpl; try (by right; right).
  - left. split; [by right | by eexists].
  - destruct (or_empty (o !! "properties")); io_simpl; try (by right; right).
    left. split; [by right | by eexists].
Qed.

(** PUT either succeeds, and writes, or writes nothing. *)
Lemma put_imoveis_loaded id v fs doc :
  loads fs doc →
  (succeeded (fst (put_imoveis id v fs))
   ∧ ∃ data, snd (put_imoveis id v fs) = Json (to_json data))
  ∨ snd (put_imoveis id v fs) = fs
  ∨ snd (put_imoveis id v fs) = Json doc.
Proof.
  intros Hfs. unfold put_imoveis, try_catch.
  destruct (validateProperty v) as [[e|]|]; io_simpl; [by right; left| |by right; left].
  rewrite (loads_readData _ _ Hfs). io_simpl.
  destruct doc as [| | | |a|o]; io_simpl; try (by right; right).
  destruct (o !! "properties") as [[| | | |l|]|]; io_simpl; try (by right; right).
  destruct (findIndex id l) as [[i|]|]; io_simpl; try (by right; right).
  left. split; [by left | by eexists].
Qed.

(** DELETE either succeeds, and writes, or writes nothing. *)
Lemma delete_imoveis_loaded id fs doc :
  loads fs doc →
  (succeeded (fst (delete_imoveis id fs))
   ∧ ∃ data, snd (delete_imoveis id fs) = Json (to_json data))
  ∨ snd (delete_imoveis id fs) = Json doc.
Proof.
  intros Hfs. unfold delete_imoveis, try_catch. io_read Hfs.
  destruct doc as [| | | |a|o]; io_simpl; try (by right).
  destruct (o !! "properties") as [[| | | |l|]|]; io_simpl; try (by right).
  destruct (filter_out id l) as [kept|]; io_simpl; try (by right).
  destruct (length kept =? length l)%nat; io_simpl; [by right|].
  left. split; [by left | by eexists].
Qed.

(** On a malformed file every route answers 400 or 500 and leaves the file. *)
Lemma serve_Malformed (req : request) :
  snd (serve req Malformed) = Malformed
  ∧ (status (fst (serve req Malformed)) = 400%Z
     ∨ status (fst (serve req Malformed)) = 500%Z).
Proof.
  destruct req as [|now v|id v|id]; simpl.
  - unfold get_imoveis, try_catch. io_run. auto.
  - unfold post_imoveis, try_catch.
    destruct (validateProperty v) as [[e|]|]; io_run; auto.
  - unfold put_imoveis, try_catch.
    destruct (validateProperty v) as [[e|]|]; io_run; auto.
  - unfold delete_imoveis, try_catch. io_run. auto.
Qed.

(** What a request can leave in the file: what was there, the document that
    was loaded, or a document that [writeData] wrote. *)
Lemma serve_file (req : request) fs :
  snd (serve req fs) = fs
  ∨ (∃ doc, loads fs doc ∧ snd (serve req fs) = Json doc)
  ∨ (∃ data, snd (serve req fs) = Json (to_json data)).
Proof.
  destruct (readData_cases fs) as [->|(doc & Hfs & _)].
  { left. apply serve_Malformed. }
  destruct req as [|now v|id v|id]; simpl.
  - right; left. exists doc. split; [done|]. by apply get_imoveis_loaded.
  - destruct (post_imoveis_loaded now v fs doc Hfs) as [[_ ?]|[?|?]];
      [by right; right | by left | right; left; by exists doc].
  - destruct (put_imoveis_loaded id v fs doc Hfs) as [[_ ?]|[?|?]];
      [by right; right | by left | right; left; by exists doc].
  - destruct (delete_imoveis_loaded id fs doc Hfs) as [[_ ?]|?];
      [by right; right | right; left; by exists doc].
Qed.

(** Every request keeps a file in which every number is written as read. *)
Lemma exact_file_serve (req : request) fs :
  exact_file fs → exact_file (snd (serve req fs)).
Proof.
  intros Hfs.
  destruct (serve_file req fs) as [->|[(doc & Hdoc & ->)|[data ->]]]; [done|..].
  - intros ? [= <-]. by apply exact_file_loads with fs.
  - intros ? [= <-]. apply to_json_exact.
Qed.

Lemma exact_file_run (rs : list request) fs :
  exact_file fs → exact_file (run rs fs).
Proof.
  revert fs. induction rs as [|req rs IH]; intros fs Hfs; [done|].
  unfold run in *. simpl. by apply IH, exact_file_serve.
Qed.

Lemma exact_file_Absent : exact_file Absent.
Proof. by intros doc. Qed.

(** X6.  What [writeData] writes is read back as JSON wrote it, whatever the
    file was (absent, malformed or holding another document): the data with
    every infinite number or NaN replaced by [null] and negative zero by
    zero, that is the data itself when it holds none of these.  No file that
    the server wrote holds any of these, and the routes bring none into a
    file that has none: along every run from such a file, or from no file,
    the file stays such a file, and saving what is loaded from it leaves it
    as it is. *)
Theorem written_files_are_exact data (rs : list request) fs :
  (_ ← writeData data; readData) fs = (Ok (to_json data), Json (to_json data))
  ∧ json_exact (to_json data)
  ∧ (json_exact data ↔ to_json data = data)
  ∧ exact_file (snd (writeData data fs))
  ∧ exact_file (run rs Absent)
  ∧ (exact_file fs →
     exact_file (run rs fs)
     ∧ ∀ doc, loads (run rs fs) doc →
         save_load (run rs fs) = (Ok (), Json doc)).
Proof.
  split; [io_run; reflexivity|]. split; [apply to_json_exact|].
  split; [|split; [|split]].
  - split; [apply json_exact_to_json|]. intros <-. apply to_json_exact.
  - rewrite writeData_any. intros ? [= <-]. apply to_json_exact.
  - apply exact_file_run, exact_file_Absent.
  - intros Hfs. pose proof (exact_file_run rs fs Hfs) as Hrun.
    split; [done|]. intros doc Hdoc. unfold save_load. io_read Hdoc.
    by rewrite (json_exact_to_json doc (exact_file_loads _ _ Hrun Hdoc)).
Qed.

Lemma written_files_are_exact_witness :
  exact_file (run [Create 1700000000000 (VObj overflowing); Remove "7"] Absent)
  ∧ ∀ doc,
      loads (run [Create 1700000000000 (VObj overflowing); Remove "7"] Absent)
        doc →
      save_load (run [Create 1700000000000 (VObj overflowing); Remove "7"] Absent)
      = (Ok (), Json doc).
Proof.
  apply (proj2 (proj2 (proj2 (proj2 (proj2
           (written_files_are_exact VNull
              [Create 1700000000000 (VObj overflowing); Remove "7"]
              Absent)))))).
  intros doc. discriminate.
Defined.

(** X7.  A request that is not answered 200 or 201 writes nothing: the file
    afterwards is the file before, or, when there was none, the empty
    Document that reading creates. *)
Theorem failed_request_writes_nothing (req : request) fs :
  ¬ succeeded (fst (serve req fs)) →
  snd (serve req fs) = fs
  ∨ (fs = Absent ∧ snd (serve req fs) = Json empty_document).
Proof.
  intros Hfail.
  destruct (readData_cases fs) as [->|(doc & Hfs & Hdoc)].
  { left. apply serve_Malformed. }
  assert (snd (serve req fs) = fs ∨ snd (serve req fs) = Json doc) as [?|Heq].
  { destruct req as [|now v|id v|id]; simpl in *.
    - right. by apply get_imoveis_loaded.
    - by destruct (post_imoveis_loaded now v fs doc Hfs) as [[? _]|?].
    - by destruct (put_imoveis_loaded id v fs doc Hfs) as [[? _]|?].
    - by destruct (delete_imoveis_loaded id fs doc Hfs) as [[? _]|?]; [|right]. }
  - by left.
  - destruct Hdoc as [->|[-> ->]]; [by left | by right].
Qed.

Lemma failed_request_writes_nothing_witness :
  snd (serve (Remove "42") (Json (VObj one_listing))) = Json (VObj one_listing)
  ∨ (Json (VObj one_listing) = Absent
     ∧ snd (serve (Remove "42") (Json (VObj one_listing))) = Json empty_document).
Proof.
  apply (failed_request_writes_nothing (Remove "42") (Json (VObj one_listing))).
  vm_compute. intros [H|H]; discriminate.
Defined.

(** X8.  A file whose content is not JSON is never repaired: whatever the
    requests, it stays as it is and every one of them is answered 400 (a
    candidate that fails validation) or 500. *)
Theorem malformed_file_stays (rs : list request) :
  run rs Malformed = Malformed
  ∧ Forall (λ res, status res = 400%Z ∨ status res = 500%Z)
      (responses rs Malformed).
Proof.
  induction rs as [|req rs [IHrun IHres]]; [by split; [|constructor]|].
  destruct (serve_Malformed req) as [Hfile Hstatus].
  unfold run in *. simpl. rewrite Hfile. split; [done|]. by constructor.
Qed.

(** X9.  GET is read-only: the file after it is the file before, or the
    empty Document when there was none, and asking again gives the same
    answer and the same file. *)
Theorem list_is_read_only fs :
  (fs ≠ Absent → snd (get_imoveis fs) = fs)
  ∧ snd (get_imoveis Absent) = Json empty_document
  ∧ get_imoveis (snd (get_imoveis fs)) = get_imoveis fs.
Proof.
  split; [|split; [done|]].
  - intros Hfs. destruct fs as [| |doc]; [done|done|].
    by apply get_imoveis_loaded.
  - destruct fs as [| |doc]; [done|done|].
    by rewrite (get_imoveis_loaded (Json doc) doc).
Qed.

Lemma list_is_read_only_witness :
  snd (get_imoveis (Json (VObj one_listing))) = Json (VObj one_listing).
Proof. apply (proj1 (list_is_read_only (Json (VObj one_listing)))). discriminate. Defined.

(** ** Files in the shape the routes write *)

Lemma is_object_not_null p : is_object p → p ≠ VNull.
Proof. by intros [r ->]. Qed.

Lemma Forall_object_not_null l : Forall is_object l → Forall (λ p, p ≠ VNull) l.
Proof. intros Hl. eapply Forall_impl; [exact Hl|]. apply is_object_not_null. Qed.

(** An object is written as an object. *)
Lemma is_object_to_json p : is_object p → is_object (to_json p).
Proof. intros [r ->]. by eexists. Qed.

(** Without [null] records the search does not throw. *)
Lemma findIndex_total id l : Forall (λ p, p ≠ VNull) l → findIndex id l ≠ Throw.
Proof.
  induction 1 as [|p l Hp _ IH]; [done|].
  simpl. rewrite has_id_record_id by done. simpl.
  destruct (bool_decide _); [done|].
  by destruct (findIndex id l) as [[i|]|].
Qed.

Lemma well_formed_Absent : well_formed Absent.
Proof. exists {[ "properties" := VArr [] ]}, []. by repeat split. Qed.

(** A document the server writes with a Collection of objects. *)
Lemma well_formed_written o l :
  Forall is_object l →
  well_formed (Json (to_json (VObj (<["properties" := VArr l]> o)))).
Proof.
  intros Hl. rewrite to_json_document.
  eexists _, _. split; [apply loads_Json|].
  split; [apply lookup_insert_eq|].
  apply Forall_fmap. eapply Forall_impl; [exact Hl|]. apply is_object_to_json.
Qed.

(** Every route keeps the shape. *)
Lemma well_formed_serve (req : request) fs :
  well_formed fs → well_formed (snd (serve req fs)).
Proof.
  intros (o & l & Hfs & Ho & Hl).
  assert (well_formed (Json (VObj o))) as Hwf.
  { exists o, l. split; [apply loads_Json | done]. }
  assert (well_formed fs) as Hwf' by by exists o, l.
  destruct req as [|now v|id v|id]; simpl.
  - by rewrite (get_imoveis_obj fs o Hfs).
  - destruct (validateProperty v) as [[e|]|] eqn:Hv.
    + by rewrite (post_imoveis_invalid now v e fs Hv).
    + destruct (validateProperty_object v Hv) as [c ->].
      rewrite (post_imoveis_valid fs o Hfs now c l Hv) by by rewrite Ho.
      apply well_formed_written.
      apply Forall_app. split; [done|]. constructor; [by eexists | constructor].
    + by apply validateProperty_Throw in Hv as ->.
  - destruct (validateProperty v) as [[e|]|] eqn:Hv.
    + by rewrite (put_imoveis_invalid id v e fs Hv).
    + destruct (validateProperty_object v Hv) as [c ->].
      rewrite (put_imoveis_valid fs o Hfs id c l Hv Ho).
      pose proof (findIndex_total id l (Forall_object_not_null l Hl)) as Htotal.
      destruct (findIndex id l) as [[i|]|]; [|done..].
      apply well_formed_written.
      apply Forall_insert; [done|]. by eexists.
    + by apply validateProperty_Throw in Hv as ->.
  - rewrite (delete_imoveis_obj fs o Hfs id l Ho).
    rewrite filter_out_filter by by apply Forall_object_not_null.
    destruct (_ =? _)%nat; [done|].
    apply well_formed_written. by apply Forall_filter_keep.
Qed.

(** X10.  The shape of the file is an invariant of the routes: from no file,
    or from a file that holds an object whose [properties] is an array of
    objects, every run of requests leaves a file that holds such an
    object. *)
Theorem well_formed_run (rs : list request) fs :
  well_formed fs → well_formed (run rs fs).
Proof.
  revert fs. induction rs as [|req rs IH]; intros fs Hwf; [done|].
  unfold run in *. simpl. by apply IH, well_formed_serve.
Qed.

Lemma well_formed_run_witness :
  well_formed (run [Create 1700000000000 (VObj sample); Remove "1700000000000";
                    Update "7" (VObj revised); List] Absent).
Proof. apply well_formed_run. apply well_formed_Absent. Defined.

(** ** How the routes compose *)

(** What a file that loads as an object lists. *)
Lemma collection_loaded fs o :
  loads fs (VObj o) → collection fs = to_json (or_empty (o !! "properties")).
Proof. intros Hfs. unfold collection. by rewrite (get_imoveis_obj fs o Hfs). Qed.

Lemma to_json_fmap_idemp l : to_json <$> (to_json <$> l) = to_json <$> l.
Proof.
  rewrite <-list_fmap_compose. apply list_fmap_ext. intros _ p _.
  apply to_json_idemp.
Qed.

(** An object in which every number is written as read. *)
Lemma json_exact_fields o : json_exact (VObj o) → to_json <$> o = o.
Proof. intros Ho. apply json_exact_to_json in Ho. by injection Ho. Qed.

Lemma json_exact_properties o l :
  json_exact (VObj o) → o !! "properties" = Some (VArr l) → to_json <$> l = l.
Proof.
  intros Ho Hl. apply (json_exact_or_empty o l Ho). by rewrite Hl.
Qed.

(** Creates append their records one after the other. *)
Lemma run_creates ts cs fs o l :
  Forall (λ c, validateProperty (VObj c) = Ok None) cs →
  loads fs (VObj o) →
  json_exact (VObj o) →
  o !! "properties" = Some (VArr l) →
  loads (run (creates ts cs) fs)
    (VObj (<["properties" := VArr (l ++ (to_json <$> created ts cs))]> o)).
Proof.
  intros Hcs. revert ts fs o l.
  induction Hcs as [|c cs Hc _ IH]; intros ts fs o l Hfs Hex Ho.
  - unfold creates, created. rewrite !zip_with_nil_r. simpl.
    by rewrite app_nil_r, insert_id.
  - destruct ts as [|t ts].
    { unfold creates, created. simpl. by rewrite app_nil_r, insert_id. }
    unfold creates, created, run in *. simpl.
    rewrite (post_imoveis_valid fs o Hfs t c l Hc) by by rewrite Ho.
    cbn [snd].
    pose proof (to_json_exact
      (VObj (<["properties" := VArr (l ++ [VObj (<["id" := VStr (pretty t)]> c)])]> o)))
      as Hex'.
    rewrite to_json_document in Hex' |- *.
    rewrite (json_exact_fields o Hex) in Hex' |- *.
    rewrite fmap_app, (json_exact_properties o l Hex Ho) in Hex' |- *.
    pose proof (IH ts _ _ _ (loads_Json _) Hex' (lookup_insert_eq o "properties" _))
      as Hrest.
    unfold creates, created, run in Hrest.
    by rewrite insert_insert_eq, <-(assoc_L (++)) in Hrest.
Qed.

(** X12.  Insertion order is kept: after creates of candidates that pass
    validation, served one after the other from no file, GET lists exactly
    their records, each with the id of its timestamp and as JSON writes it,
    in the order of the creates (whatever the timestamps, equal ones
    included). *)
Theorem creates_are_listed_in_order ts cs :
  Forall (λ c, validateProperty (VObj c) = Ok None) cs →
  collection (run (creates ts cs) Absent) = VArr (to_json <$> created ts cs).
Proof.
  intros Hcs.
  assert (json_exact (VObj {[ "properties" := VArr [] ]})) as Hex.
  { apply exact_obj, map_Forall_singleton, exact_arr. constructor. }
  rewrite (collection_loaded _ _
             (run_creates ts cs Absent {[ "properties" := VArr [] ]} []
                Hcs loads_Absent Hex (lookup_singleton_eq _ _))).
  rewrite lookup_insert_eq. cbn [or_empty truthy app].
  change (to_json (VArr (to_json <$> created ts cs)))
    with (VArr (to_json <$> (to_json <$> created ts cs))).
  by rewrite to_json_fmap_idemp.
Qed.

Lemma creates_are_listed_in_order_witness :
  collection (run (creates [1700000000000; 1700000000000]%Z [overflowing; revised])
                Absent)
  = VArr (to_json <$> created [1700000000000; 1700000000000]%Z
                        [overflowing; revised]).
Proof.
  apply creates_are_listed_in_order.
  repeat constructor.
Defined.

(** Writing what was read from a written document, with the Collection it
    had, writes that document again. *)
Lemma to_json_written o l (w : value) :
  to_json (VObj (<["properties" := VArr (to_json <$> l)]>
                   (<["properties" := w]> (to_json <$> o))))
  = to_json (VObj (<["properties" := VArr l]> o)).
Proof.
  rewrite insert_insert_eq, <-to_json_document. apply to_json_idemp.
Qed.

Lemma to_json_not_null p : to_json p ≠ VNull → p ≠ VNull.
Proof. by intros Hp ->. Qed.

(** X13.  Create then delete is a round trip: when no stored record has the
    id of the timestamp, deleting the record just created answers 200 and
    leaves the file holding the document it held before the create, as JSON
    writes it: that very document when every number of the file is written
    as read. *)
Theorem create_then_delete now c fs o l :
  validateProperty (VObj c) = Ok None →
  loads fs (VObj o) →
  o !! "properties" = Some (VArr l) →
  Forall (λ p, to_json p ≠ VNull ∧ record_id p ≠ Some (pretty now)) l →
  delete_imoveis (pretty now) (snd (post_imoveis now (VObj c) fs))
  = (Response 200 (message "Imóvel apagado com sucesso."),
     Json (to_json (VObj o)))
  ∧ (exact_file fs →
     delete_imoveis (pretty now) (snd (post_imoveis now (VObj c) fs))
     = (Response 200 (message "Imóvel apagado com sucesso."), Json (VObj o))).
Proof.
  intros Hv Hfs Ho Hl.
  assert (delete_imoveis (pretty now) (snd (post_imoveis now (VObj c) fs))
          = (Response 200 (message "Imóvel apagado com sucesso."),
             Json (to_json (VObj o)))) as Heq.
  { rewrite (post_imoveis_valid fs o Hfs now c l Hv) by by rewrite Ho.
    cbn [snd]. rewrite to_json_document.
    rewrite (delete_imoveis_obj _ _ (loads_Json _) (pretty now)
               (to_json <$> (l ++ [VObj (<["id" := VStr (pretty now)]> c)])))
      by apply lookup_insert_eq.
    rewrite filter_out_filter.
    2:{ apply Forall_fmap, Forall_app. split; [|by repeat constructor].
        eapply Forall_impl; [exact Hl|]. by intros p [? _]. }
    rewrite filter_to_json, filter_app, filter_all_Forall.
    2:{ eapply Forall_impl; [exact Hl|]. by intros p [_ ?]. }
    rewrite filter_cons, decide_False, filter_nil, app_nil_r.
    2:{ simpl. rewrite lookup_insert_eq. by intros []. }
    rewrite !length_fmap, length_app. cbn [length].
    rewrite (proj2 (Nat.eqb_neq _ _)) by lia.
    by rewrite to_json_written, insert_id. }
  split; [done|]. intros Hex. rewrite Heq.
  by rewrite (json_exact_to_json _ (exact_file_loads _ _ Hex Hfs)).
Qed.

Lemma create_then_delete_witness :
  delete_imoveis (pretty 1700000000001%Z)
    (snd (post_imoveis 1700000000001 (VObj revised) (Json (VObj one_listing))))
  = (Response 200 (message "Imóvel apagado com sucesso."),
     Json (to_json (VObj one_listing)))
  ∧ (exact_file (Json (VObj one_listing)) →
     delete_imoveis (pretty 1700000000001%Z)
       (snd (post_imoveis 1700000000001 (VObj revised) (Json (VObj one_listing))))
     = (Response 200 (message "Imóvel apagado com sucesso."),
        Json (VObj one_listing))).
Proof.
  apply (create_then_delete 1700000000001 revised (Json (VObj one_listing))
           one_listing [VObj listed]).
  - reflexivity.
  - reflexivity.
  - reflexivity.
  - repeat constructor; [discriminate | vm_compute; discriminate].
Defined.

(** Merging a candidate over what was written of the result of merging it
    is written as that result. *)
Lemma merge_twice id c r :
  to_json <$> <["id" := VStr id]> (c ∪ (to_json <$> <["id" := VStr id]> (c ∪ r)))
  = to_json <$> <["id" := VStr id]> (c ∪ r).
Proof.
  apply map_eq. intros k. rewrite !lookup_fmap.
  destruct (decide (k = "id")) as [->|Hk].
  - by rewrite !lookup_insert_eq.
  - rewrite !lookup_insert_ne by done. rewrite !lookup_union, lookup_fmap.
    rewrite lookup_insert_ne by done. rewrite lookup_union.
    destruct (c !! k), (r !! k); simpl; try done.
    by rewrite to_json_idemp.
Qed.

(** X14.  PUT is idempotent: sending again, to the same id, the candidate
    of a PUT that was answered 200 gives the same answer and leaves the file
    as the first one left it. *)
Theorem update_twice id c fs o l r :
  validateProperty (VObj c) = Ok None →
  loads fs (VObj o) →
  o !! "properties" = Some (VArr l) →
  Forall (λ p, to_json p ≠ VNull) l →
  VObj r ∈ l →
  r !! "id" = Some (VStr id) →
  status (fst (put_imoveis id (VObj c) fs)) = 200%Z
  ∧ put_imoveis id (VObj c) (snd (put_imoveis id (VObj c) fs))
    = put_imoveis id (VObj c) fs.
Proof.
  intros Hv Hfs Ho Hrec Hr Hid.
  destruct (first_record_split id l) as (l1 & r0 & l2 & -> & Hr0 & Hl1).
  { apply Exists_exists. exists (VObj r). split; [done|]. simpl. by rewrite Hid. }
  assert (Forall (λ p, p ≠ VNull ∧ record_id p ≠ Some id) l1) as Hl1'.
  { apply Forall_app in Hrec as [Hrec _].
    apply Forall_forall. intros p Hp. split.
    - eapply Forall_forall in Hrec; [|done]. by apply to_json_not_null.
    - by eapply Forall_forall in Hl1. }
  assert (Forall (λ p, p ≠ VNull ∧ record_id p ≠ Some id) (to_json <$> l1))
    as Hl1''.
  { apply Forall_app in Hrec as [Hrec _].
    apply Forall_fmap, Forall_forall. intros p Hp. split.
    - by eapply Forall_forall in Hrec.
    - rewrite record_id_to_json. by eapply Forall_forall in Hl1. }
  rewrite (put_imoveis_valid fs o Hfs id c _ Hv Ho).
  rewrite (findIndex_first id l1 (VObj r0) l2 Hl1') by (simpl; by rewrite Hr0).
  cbn zeta. rewrite list_lookup_total_middle by done. cbn [spread fst snd status].
  rewrite insert_middle. split; [done|].
  set (m := <["id" := VStr id]> (c ∪ r0)).
  rewrite (to_json_document o (l1 ++ VObj m :: l2)) at 1.
  rewrite (put_imoveis_valid _ _ (loads_Json _) id c
             (to_json <$> (l1 ++ VObj m :: l2)) Hv)
    by apply lookup_insert_eq.
  rewrite fmap_app, fmap_cons.
  change (to_json (VObj m)) with (VObj (to_json <$> m)).
  rewrite (findIndex_first id (to_json <$> l1) _ (to_json <$> l2) Hl1'')
    by (unfold record_id, m; by rewrite lookup_fmap, lookup_insert_eq).
  cbn zeta. rewrite list_lookup_total_middle by by rewrite length_fmap.
  cbn [spread]. rewrite insert_middle.
  assert (to_json (VObj (<["id" := VStr id]> (c ∪ (to_json <$> m))))
          = to_json (VObj m)) as Hm.
  { simpl. f_equal. apply merge_twice. }
  rewrite Hm. f_equal. f_equal.
  rewrite insert_insert_eq, !to_json_document. f_equal. f_equal.
  - rewrite !fmap_app, !fmap_cons, !to_json_fmap_idemp.
    by rewrite Hm.
  - rewrite <-map_fmap_compose. apply map_fmap_ext. intros _ p _.
    apply to_json_idemp.
Qed.

Lemma update_twice_witness :
  status (fst (put_imoveis "1700000000000" (VObj revised) (Json (VObj one_listing))))
  = 200%Z
  ∧ put_imoveis "1700000000000" (VObj revised)
      (snd (put_imoveis "1700000000000" (VObj revised) (Json (VObj one_listing))))
    = put_imoveis "1700000000000" (VObj revised) (Json (VObj one_listing)).
Proof.
  apply (update_twice "1700000000000" revised (Json (VObj one_listing))
           one_listing [VObj listed] listed).
  - reflexivity.
  - reflexivity.
  - reflexivity.
  - repeat constructor. discriminate.
  - apply list_elem_of_here.
  - reflexivity.
Defined.

(** X15.  What a PUT that is answered 200 can change: one record, the one
    it answers with, which had the path id and keeps it; that record loses
    none of its fields, and the Collection keeps its length, its order and
    its ids, in the document that is written and in what GET lists from
    it. *)
Theorem update_changes_one_record id v fs o l :
  loads fs (VObj o) →
  o !! "properties" = Some (VArr l) →
  status (fst (put_imoveis id v fs)) = 200%Z →
  ∃ i r m,
    l !! i = Some (VObj r)
    ∧ r !! "id" = Some (VStr id)
    ∧ put_imoveis id v fs
      = (Response 200 (VObj (to_json <$> m)),
         Json (to_json (VObj (<["properties" := VArr (<[i := VObj m]> l)]> o))))
    ∧ collection (snd (put_imoveis id v fs))
      = VArr (<[i := VObj (to_json <$> m)]> (to_json <$> l))
    ∧ (to_json <$> m) !! "id" = Some (VStr id)
    ∧ dom r ⊆ dom (to_json <$> m)
    ∧ length (<[i := VObj (to_json <$> m)]> (to_json <$> l)) = length l
    ∧ ids (<[i := VObj (to_json <$> m)]> (to_json <$> l)) = ids l.
Proof.
  intros Hfs Ho Hstatus.
  destruct (validateProperty v) as [[e|]|] eqn:Hv.
  - by rewrite (put_imoveis_invalid id v e fs Hv) in Hstatus.
  - destruct (validateProperty_object v Hv) as [c ->].
    rewrite (put_imoveis_valid fs o Hfs id c l Hv Ho) in Hstatus |- *.
    destruct (findIndex id l) as [[i|]|] eqn:Hi; [|done..].
    apply findIndex_Some in Hi as (r & Hr & Hid).
    exists i, r, (<["id" := VStr id]> (c ∪ r)).
    cbn zeta. rewrite (list_lookup_total_correct l i (VObj r) Hr). cbn [spread].
    set (m := <["id" := VStr id]> (c ∪ r)).
    assert (<[i := VObj (to_json <$> m)]> (to_json <$> l)
            = to_json <$> <[i := VObj m]> l) as Hins
      by by rewrite list_fmap_insert.
    split; [done|]. split; [done|]. split; [done|].
    split; [|split; [|split; [|split]]].
    + cbn [snd]. unfold collection. rewrite get_imoveis_written.
      by rewrite Hins.
    + unfold m. by rewrite lookup_fmap, lookup_insert_eq.
    + unfold m. rewrite dom_fmap_L, dom_insert_L, dom_union_L. set_solver.
    + by rewrite length_insert, length_fmap.
    + rewrite Hins, ids_to_json. unfold ids. rewrite list_fmap_insert.
      apply list_insert_id.
      rewrite list_lookup_fmap, Hr. unfold m. simpl.
      by rewrite lookup_insert_eq, Hid.
  - apply validateProperty_Throw in Hv as ->.
    by vm_compute in Hstatus.
Qed.

Lemma update_changes_one_record_witness :
  ∃ i r m,
    [VObj listed] !! i = Some (VObj r)
    ∧ r !! "id" = Some (VStr "1700000000000")
    ∧ put_imoveis "1700000000000" (VObj revised) (Json (VObj one_listing))
      = (Response 200 (VObj (to_json <$> m)),
         Json (to_json (VObj (<["properties" := VArr (<[i := VObj m]> [VObj listed])]>
                        one_listing))))
    ∧ collection (snd (put_imoveis "1700000000000" (VObj revised)
                         (Json (VObj one_listing))))
      = VArr (<[i := VObj (to_json <$> m)]> (to_json <$> [VObj listed]))
    ∧ (to_json <$> m) !! "id" = Some (VStr "1700000000000")
    ∧ dom r ⊆ dom (to_json <$> m)
    ∧ length (<[i := VObj (to_json <$> m)]> (to_json <$> [VObj listed]))
      = length [VObj listed]
    ∧ ids (<[i := VObj (to_json <$> m)]> (to_json <$> [VObj listed]))
      = ids [VObj listed].
Proof.
  apply (update_changes_one_record "1700000000000" (VObj revised)
           (Json (VObj one_listing)) one_listing [VObj listed]).
  - reflexivity.
  - reflexivity.
  - vm_compute. reflexivity.
Defined.

Lemma filter_all_length {A} (P : A → Prop) `{!∀ a, Decision (P a)} (xs : list A) :
  length (filter P xs) = length xs → filter P xs = xs.
Proof.
  induction xs as [|a xs IH]; [done|]. rewrite filter_cons.
  destruct (decide (P a)); simpl.
  - intros [= Hlen]. by rewrite IH.
  - intros Hlen. pose proof (length_filter P xs). lia.
Qed.

Lemma Forall_filter_holds {A} (P : A → Prop) `{!∀ a, Decision (P a)} (xs : list A) :
  Forall P (filter P xs).
Proof.
  induction xs as [|a xs IH]; [constructor|].
  rewrite filter_cons. destruct (decide (P a)); [by constructor | done].
Qed.

(** X16.  After DELETE of an id, answered 200 or 404, no record of the
    Collection has that id: GET lists the records of the other ids in their
    order, as JSON writes them, a second DELETE of the id answers 404, and
    so does a PUT to it; neither writes. *)
Theorem delete_then_gone id fs o l :
  loads fs (VObj o) →
  o !! "properties" = Some (VArr l) →
  Forall (λ p, to_json p ≠ VNull) l →
  let fs' := snd (delete_imoveis id fs) in
  collection fs' = VArr (to_json <$> filter (λ p, record_id p ≠ Some id) l)
  ∧ delete_imoveis id fs'
    = (Response 404 (message "Imóvel não encontrado para apagar."), fs')
  ∧ (∀ v, validateProperty v = Ok None →
       put_imoveis id v fs'
       = (Response 404 (message "Imóvel não encontrado."), fs')).
Proof.
  intros Hfs Ho Hrec fs'.
  set (kept := filter (λ p, record_id p ≠ Some id) l).
  assert (Forall (λ p, p ≠ VNull) l) as Hrec'.
  { eapply Forall_impl; [exact Hrec|]. apply to_json_not_null. }
  assert (∃ o' kept', fs' = Json (VObj o')
            ∧ o' !! "properties" = Some (VArr kept')
            ∧ to_json <$> kept' = to_json <$> kept
            ∧ Forall (λ p, p ≠ VNull) kept'
            ∧ Forall (λ p, record_id p ≠ Some id) kept')
    as (o' & kept' & -> & Ho' & Hsame & Hkept & Hnone).
  { unfold fs'. rewrite (delete_imoveis_obj fs o Hfs id l Ho).
    rewrite (filter_out_filter id l Hrec'). fold kept.
    destruct (length kept =? length l)%nat eqn:Hlen.
    - exists o, l. split; [done|]. apply Nat.eqb_eq in Hlen.
      assert (kept = l) as Hall by by apply filter_all_length.
      split; [done|]. split; [by rewrite Hall|]. split; [done|].
      rewrite <-Hall. apply Forall_filter_holds.
    - cbn [snd]. rewrite to_json_document. eexists _, (to_json <$> kept).
      split; [done|]. split; [apply lookup_insert_eq|].
      split; [apply to_json_fmap_idemp|]. split.
      + apply Forall_fmap. apply Forall_filter_keep.
        eapply Forall_impl; [exact Hrec|]. done.
      + apply Forall_fmap. eapply Forall_impl; [apply Forall_filter_holds|].
        intros p Hp. simpl. by rewrite record_id_to_json. }
  split; [|split].
  - rewrite (collection_loaded _ o' (loads_Json _)), Ho'.
    cbn [or_empty truthy]. simpl. by rewrite Hsame.
  - rewrite (delete_imoveis_obj _ o' (loads_Json _) id kept' Ho').
    rewrite (filter_out_filter id kept' Hkept).
    rewrite filter_all_Forall by done. by rewrite Nat.eqb_refl.
  - intros v Hv. destruct (validateProperty_object v Hv) as [c ->].
    rewrite (put_imoveis_valid _ o' (loads_Json _) id c kept' Hv Ho').
    rewrite findIndex_None; [done|].
    apply Forall_forall. intros p Hp. split.
    + by eapply Forall_forall in Hkept.
    + by eapply Forall_forall in Hnone.
Qed.

Lemma delete_then_gone_witness :
  let fs' := snd (delete_imoveis "1700000000000" (Json (VObj one_listing))) in
  collection fs'
  = VArr (to_json <$> filter (λ p, record_id p ≠ Some "1700000000000")
                        [VObj listed])
  ∧ delete_imoveis "1700000000000" fs'
    = (Response 404 (message "Imóvel não encontrado para apagar."), fs')
  ∧ (∀ v, validateProperty v = Ok None →
       put_imoveis "1700000000000" v fs'
       = (Response 404 (message "Imóvel não encontrado."), fs')).
Proof.
  apply (delete_then_gone "1700000000000" (Json (VObj one_listing))
           one_listing [VObj listed]).
  - reflexivity.
  - reflexivity.
  - repeat constructor. discriminate.
Defined.

(** ** Files of another shape *)

(** The filter reads the id of every record: one [null] makes it throw. *)
Lemma filter_out_null id l1 l2 : filter_out id (l1 ++ VNull :: l2) = Throw.
Proof.
  induction l1 as [|p l1 IH]; [done|].
  simpl. destruct (has_id id p) as [found|]; [|done]. simpl. by rewrite IH.
Qed.

(** The search stops at a [null] that comes before any record of the id. *)
Lemma findIndex_null id l1 l2 :
  Forall (λ p, p ≠ VNull ∧ record_id p ≠ Some id) l1 →
  findIndex id (l1 ++ VNull :: l2) = Throw.
Proof.
  induction 1 as [|p l1 [Hp Hid] _ IH]; [done|].
  simpl. rewrite has_id_record_id by done.
  rewrite bool_decide_eq_false_2 by done. simpl. by rewrite IH.
Qed.

(** X17.  A [null] among the records: every DELETE answers 500, whatever
    the id, and a PUT answers 500 unless a record of the path id comes before
    the [null]; PUT to the id of a record that comes before it is served as
    usual.  Nothing is written by the ones that fail. *)
Theorem null_record id c fs o l1 l2 :
  validateProperty (VObj c) = Ok None →
  loads fs (VObj o) →
  o !! "properties" = Some (VArr (l1 ++ VNull :: l2)) →
  Forall (λ p, p ≠ VNull) l1 →
  delete_imoveis id fs
  = (Response 500 (message "Erro ao apagar o imóvel."), Json (VObj o))
  ∧ (Forall (λ p, record_id p ≠ Some id) l1 →
     put_imoveis id (VObj c) fs
     = (Response 500 (message "Erro ao atualizar o imóvel."), Json (VObj o)))
  ∧ (Exists (λ p, record_id p = Some id) l1 →
     status (fst (put_imoveis id (VObj c) fs)) = 200%Z).
Proof.
  intros Hv Hfs Ho Hl1. split; [|split].
  - rewrite (delete_imoveis_obj fs o Hfs id _ Ho). by rewrite filter_out_null.
  - intros Hnone. rewrite (put_imoveis_valid fs o Hfs id c _ Hv Ho).
    rewrite findIndex_null; [done|].
    apply Forall_forall. intros p Hp. split.
    + by eapply Forall_forall in Hl1.
    + by eapply Forall_forall in Hnone.
  - intros Hex.
    destruct (first_record_split id l1 Hex) as (k1 & r0 & k2 & -> & Hr0 & Hk1).
    rewrite (put_imoveis_valid fs o Hfs id c _ Hv Ho).
    rewrite <-(assoc_L (++)). cbn [app].
    rewrite (findIndex_first id k1 (VObj r0)); [done| |by simpl; rewrite Hr0].
    apply Forall_app in Hl1 as [Hl1 _].
    apply Forall_forall. intros p Hp. split.
    + by eapply Forall_forall in Hl1.
    + by eapply Forall_forall in Hk1.
Qed.

Lemma null_record_witness :
  delete_imoveis "1700000000000"
    (Json (VObj {[ "properties" := VArr ([VObj listed] ++ VNull :: []) ]}))
  = (Response 500 (message "Erro ao apagar o imóvel."),
     Json (VObj {[ "properties" := VArr ([VObj listed] ++ VNull :: []) ]}))
  ∧ (Forall (λ p, record_id p ≠ Some "1700000000000") [VObj listed] →
     put_imoveis "1700000000000" (VObj revised)
       (Json (VObj {[ "properties" := VArr ([VObj listed] ++ VNull :: []) ]}))
     = (Response 500 (message "Erro ao atualizar o imóvel."),
        Json (VObj {[ "properties" := VArr ([VObj listed] ++ VNull :: []) ]})))
  ∧ (Exists (λ p, record_id p = Some "1700000000000") [VObj listed] →
     status (fst (put_imoveis "1700000000000" (VObj revised)
                    (Json (VObj {[ "properties" :=
                                     VArr ([VObj listed] ++ VNull :: []) ]}))))
     = 200%Z).
Proof.
  apply (null_record "1700000000000" revised
           (Json (VObj {[ "properties" := VArr ([VObj listed] ++ VNull :: []) ]}))
           {[ "properties" := VArr ([VObj listed] ++ VNull :: []) ]}
           [VObj listed] []).
  - reflexivity.
  - reflexivity.
  - reflexivity.
  - repeat constructor. discriminate.
Defined.

(** X18.  When the document is an array instead of an object: GET answers
    200 with the empty array, not with the elements; POST of a candidate that
    passes validation answers 201 with the record and its id, and the record
    is not stored: the array is written again as it was loaded, as JSON
    writes it; PUT of such a candidate and DELETE answer 500 and write
    nothing. *)
Theorem array_document now id c a :
  validateProperty (VObj c) = Ok None →
  let fs := Json (VArr a) in
  get_imoveis fs = (Response 200 (VArr []), fs)
  ∧ post_imoveis now (VObj c) fs
    = (Response 201 (VObj (to_json <$> <["id" := VStr (pretty now)]> c)),
       Json (VArr (to_json <$> a)))
  ∧ (json_exact (VArr a) → snd (post_imoveis now (VObj c) fs) = fs)
  ∧ put_imoveis id (VObj c) fs
    = (Response 500 (message "Erro ao atualizar o imóvel."), fs)
  ∧ delete_imoveis id fs
    = (Response 500 (message "Erro ao apagar o imóvel."), fs).
Proof.
  intros Hv fs. subst fs.
  assert (post_imoveis now (VObj c) (Json (VArr a))
          = (Response 201 (VObj (to_json <$> <["id" := VStr (pretty now)]> c)),
             Json (VArr (to_json <$> a)))) as Hpost.
  { unfold post_imoveis, try_catch. rewrite Hv. by io_run. }
  split; [done|]. split; [done|]. split; [|split; [|done]].
  - intros Hex. rewrite Hpost. cbn [snd]. apply json_exact_to_json in Hex.
    change (VArr (to_json <$> a)) with (to_json (VArr a)). by rewrite Hex.
  - unfold put_imoveis, try_catch. rewrite Hv. by io_run.
Qed.

Lemma array_document_witness :
  let fs := Json (VArr [VObj listed]) in
  get_imoveis fs = (Response 200 (VArr []), fs)
  ∧ post_imoveis 1700000000001 (VObj sample) fs
    = (Response 201
         (VObj (to_json <$> <["id" := VStr (pretty 1700000000001%Z)]> sample)),
       Json (VArr (to_json <$> [VObj listed])))
  ∧ (json_exact (VArr [VObj listed]) →
     snd (post_imoveis 1700000000001 (VObj sample) fs) = fs)
  ∧ put_imoveis "1700000000000" (VObj sample) fs
    = (Response 500 (message "Erro ao atualizar o imóvel."), fs)
  ∧ delete_imoveis "1700000000000" fs
    = (Response 500 (message "Erro ao apagar o imóvel."), fs).
Proof.
  apply (array_document 1700000000001 "1700000000000" sample [VObj listed]).
  reflexivity.
Defined.

(** X19.  When [properties] is there but is not an array: a truthy value
    (a string, a non-zero number, [true], an object) is what GET answers
    with, as JSON writes it, and makes POST of a candidate that passes validation, PUT
    of one and DELETE answer 500 without writing; a falsy value ([null],
    [false], zero, the empty string) is listed as the empty array and is
    replaced by POST with an array that holds the new record alone. *)
Theorem properties_not_an_array now id c o (w : value) :
  validateProperty (VObj c) = Ok None →
  o !! "properties" = Some w →
  (∀ l, w ≠ VArr l) →
  let fs := Json (VObj o) in
  let stored := VObj (<["id" := VStr (pretty now)]> c) in
  put_imoveis id (VObj c) fs
  = (Response 500 (message "Erro ao atualizar o imóvel."), fs)
  ∧ delete_imoveis id fs
    = (Response 500 (message "Erro ao apagar o imóvel."), fs)
  ∧ (truthy (Some w) = true →
     get_imoveis fs = (Response 200 (to_json w), fs)
     ∧ post_imoveis now (VObj c) fs
       = (Response 500 (message "Erro ao adicionar o imóvel."), fs))
  ∧ (truthy (Some w) = false →
     get_imoveis fs = (Response 200 (VArr []), fs)
     ∧ post_imoveis now (VObj c) fs
       = (Response 201 (to_json stored),
          Json (to_json (VObj (<["properties" := VArr [stored]]> o))))).
Proof.
  intros Hv Ho Hw fs stored. subst fs stored.
  split; [|split; [|split]].
  - unfold put_imoveis, try_catch. rewrite Hv. io_run. rewrite Ho.
    destruct w as [| | | |l|]; try (by io_run). by destruct (Hw l).
  - unfold delete_imoveis, try_catch. io_run. rewrite Ho.
    destruct w as [| | | |l|]; try (by io_run). by destruct (Hw l).
  - intros Htrue.
    assert (or_empty (Some w) = w) as Hor by (unfold or_empty; by rewrite Htrue).
    split.
    + rewrite (get_imoveis_obj _ o (loads_Json _)). by rewrite Ho, Hor.
    + unfold post_imoveis, try_catch. rewrite Hv. io_run. rewrite Ho, Hor.
      destruct w as [| | | |l|]; try (by io_run). by destruct (Hw l).
  - intros Hfalse.
    assert (or_empty (Some w) = VArr []) as Hor
      by (unfold or_empty; by rewrite Hfalse).
    split.
    + rewrite (get_imoveis_obj _ o (loads_Json _)). by rewrite Ho, Hor.
    + rewrite (post_imoveis_valid _ o (loads_Json _) now c []); [done..|].
      by rewrite Ho.
Qed.

Lemma properties_not_an_array_witness :
  let fs := Json (VObj {[ "properties" := VStr "none" ]}) in
  let stored := VObj (<["id" := VStr (pretty 1700000000000%Z)]> sample) in
  put_imoveis "1700000000000" (VObj sample) fs
  = (Response 500 (message "Erro ao atualizar o imóvel."), fs)
  ∧ delete_imoveis "1700000000000" fs
    = (Response 500 (message "Erro ao apagar o imóvel."), fs)
  ∧ (truthy (Some (VStr "none")) = true →
     get_imoveis fs = (Response 200 (to_json (VStr "none")), fs)
     ∧ post_imoveis 1700000000000 (VObj sample) fs
       = (Response 500 (message "Erro ao adicionar o imóvel."), fs))
  ∧ (truthy (Some (VStr "none")) = false →
     get_imoveis fs = (Response 200 (VArr []), fs)
     ∧ post_imoveis 1700000000000 (VObj sample) fs
       = (Response 201 (to_json stored),
          Json (to_json (VObj (<["properties" := VArr [stored]]>
                                  {[ "properties" := VStr "none" ]}))))).
Proof.
  apply (properties_not_an_array 1700000000000 "1700000000000" sample
           {[ "properties" := VStr "none" ]} (VStr "none")).
  - reflexivity.
  - reflexivity.
  - discriminate.
Defined.
